(** * MqttClient: a facade over the mosquitto MQTT engine

    Shallow embedding of [src/mosquitto.cpp] and [src/mosquitto.h].

    The facade owns no protocol logic: every member function is a short
    sequence of calls into libmosquitto whose [int] results decide the
    [bool] handed back to the application.  The model therefore keeps

    - the engine as an oracle ([Engine]) answering each call from the
      history of calls made so far, and a [trace] recording every call
      with the arguments the source passes;
    - the static member [mSubscriptionHandlers] as one process-wide map
      in the [World], next to the heap of live [MqttClient] objects;
    - [throw] and the use of a dead object as outcomes of a small
      state monad [M]. *)

From stdpp Require Import gmap strings list.
From Stdlib Require Import ZArith Ascii String.

Open Scope Z_scope.

(** ** C strings and integer conversions *)

(** [s.c_str()] handed to a C function that reads up to the terminator,
    and equally a [char*] converted to [std::string]: the bytes before
    the first NUL. *)
Fixpoint c_str (s : string) : string :=
  match s with
  | EmptyString => EmptyString
  | String c rest => if Ascii.eqb c Ascii.zero then EmptyString
                     else String c (c_str rest)
  end.

(** [static_cast<int>(n)] for a [size_t] value [n]: reduction modulo
    2^32 into the signed 32-bit range. *)
Definition static_cast_int (n : Z) : Z :=
  (n + 2 ^ 31) mod 2 ^ 32 - 2 ^ 31.

(** ** Engine-side types (from <mosquitto.h> of libmosquitto) *)

(** [mosquitto*]: [None] is [nullptr]. *)
Definition mosquitto_ptr : Type := option nat.

Definition MOSQ_ERR_SUCCESS : Z := 0.
Definition MOSQ_ERR_UNKNOWN : Z := 13.
Definition MOSQ_OPT_PROTOCOL_VERSION : Z := 1.
Definition MQTT_PROTOCOL_V311 : Z := 4.

(** [struct mosquitto_message].  [msg_topic] holds the bytes at the
    [char*] [topic].  [msg_payload] is the [void*] [payload]: [None] is
    the null pointer, which is what the engine delivers with a message
    of [payloadlen] 0; [Some buffer] points to the [payloadlen] bytes
    received ([payloadlen] is the length of [buffer]), which the engine
    stores followed by a terminating NUL. *)
Record mosquitto_message : Type := {
  msg_mid : Z;
  msg_topic : string;
  msg_payload : option string;
  msg_qos : Z;
  msg_retain : bool
}.

(** ** Application-side types *)

(** Modelled from the spec: [CallbackType] is declared in a header that
    is not part of the sources; the spec gives it as a callable
    accepting [(topic: string, payload: string)] and returning nothing.
    A callable target is identified by a number; [None] is the empty
    [std::function], the one that compares equal to [nullptr]. *)
Definition Handler : Type := nat.
Definition CallbackType : Type := option Handler.

(** [MqttClient::SubscriptionTable] *)
Abbreviation SubscriptionTable := (gmap string CallbackType).

(** The four static callbacks of the anonymous namespace, as values that
    can be registered with the engine. *)
Inductive HookFn : Type :=
  | connectCallback_fn
  | publishCallback_fn
  | subscribeCallback_fn
  | messageCallback_fn.

(** Everything the facade asks of the outside world, with the arguments
    of the source; [handler_call] is the invocation of a registered
    [CallbackType]. *)
Inductive Event : Type :=
  | mosquitto_lib_init
  | mosquitto_lib_cleanup
  | mosquitto_new (id : string) (clean_session : bool) (userdata : nat)
  | mosquitto_destroy (mosq : mosquitto_ptr)
  | mosquitto_connect_callback_set (mosq : mosquitto_ptr) (on_connect : HookFn)
  | mosquitto_publish_callback_set (mosq : mosquitto_ptr) (on_publish : HookFn)
  | mosquitto_subscribe_callback_set (mosq : mosquitto_ptr) (on_subscribe : HookFn)
  | mosquitto_message_callback_set (mosq : mosquitto_ptr) (on_message : HookFn)
  | mosquitto_username_pw_set (mosq : mosquitto_ptr) (username password : string)
  | mosquitto_tls_set (mosq : mosquitto_ptr) (cafile capath certfile keyfile : string)
                      (pw_callback : option nat)
  | mosquitto_opts_set (mosq : mosquitto_ptr) (option value : Z)
  | mosquitto_connect_async (mosq : mosquitto_ptr) (host : string) (port keepalive : Z)
  | mosquitto_loop_start (mosq : mosquitto_ptr)
  | mosquitto_disconnect (mosq : mosquitto_ptr)
  | mosquitto_publish (mosq : mosquitto_ptr) (mid : option nat) (topic : string)
                      (payloadlen : Z) (payload : string) (qos : Z) (retain : bool)
  | mosquitto_subscribe (mosq : mosquitto_ptr) (mid : option nat) (sub : string) (qos : Z)
  | handler_call (f : Handler) (topic payload : string).

Global Instance HookFn_eq_dec : EqDecision HookFn.
Proof. solve_decision. Defined.

Global Instance Event_eq_dec : EqDecision Event.
Proof. solve_decision. Defined.

(** The engine: the [int] a call returns and the handle
    [mosquitto_new] returns, both as functions of the calls made before
    it, and the diagnostic text of [mosquitto_strerror]. *)
Record Engine : Type := {
  mosq_ret : list Event -> Event -> Z;
  mosq_new_ret : list Event -> Event -> mosquitto_ptr;
  mosq_strerror : Z -> string
}.

(** ** Logging (the LOG_DEBUG and LOG_INFO macros) *)

Inductive LogLevel : Type := DEBUG | INFO.

(** One operand of the [<<] chain of a log statement: a string, a
    number, or a [char*] as it is handed over ([None] is a null
    pointer). *)
Inductive LogPart : Type :=
  | Str (s : string)
  | Num (n : Z)
  | CharPtr (p : option string).

(** ** The facade object and the world it lives in *)

Record MqttClient : Type := {
  mMosquitoLibHandler : mosquitto_ptr
}.

Record World : Type := {
  trace : list Event;
  log : list (LogLevel * list LogPart);
  files : gset string;
  objects : gmap nat MqttClient;
  mSubscriptionHandlers : gmap string CallbackType
}.

Definition set_trace (t : list Event) (w : World) : World :=
  {| trace := t; log := log w; files := files w; objects := objects w;
     mSubscriptionHandlers := mSubscriptionHandlers w |}.

Definition set_log (l : list (LogLevel * list LogPart)) (w : World) : World :=
  {| trace := trace w; log := l; files := files w; objects := objects w;
     mSubscriptionHandlers := mSubscriptionHandlers w |}.

Definition set_objects (o : gmap nat MqttClient) (w : World) : World :=
  {| trace := trace w; log := log w; files := files w; objects := o;
     mSubscriptionHandlers := mSubscriptionHandlers w |}.

Definition set_mSubscriptionHandlers (t : gmap string CallbackType) (w : World) : World :=
  {| trace := trace w; log := log w; files := files w; objects := objects w;
     mSubscriptionHandlers := t |}.

(** ** The monad of facade code *)

(** A call returns, leaves by an exception, or has no defined
    behaviour (a member function run on an address holding no live
    object). *)
Inductive Outcome (A : Type) : Type :=
  | Returned (a : A)
  | Thrown (what : string)
  | Undefined.
Arguments Returned {A} a.
Arguments Thrown {A} what.
Arguments Undefined {A}.

Definition M (A : Type) : Type := World -> Outcome A * World.

Global Instance M_ret : MRet M := fun A a w => (Returned a, w).

Global Instance M_bind : MBind M := fun A B k m w =>
  match m w with
  | (Returned a, w') => k a w'
  | (Thrown what, w') => (Thrown what, w')
  | (Undefined, w') => (Undefined, w')
  end.

Definition throw {A : Type} (what : string) : M A := fun w => (Thrown what, w).

(** The conversion of a [char*] into a [std::string], as it happens at
    [std::string(p)] and where a [char*] is passed for a string
    parameter: the bytes before the first NUL; from a null pointer the
    constructor throws [std::logic_error]. *)
Definition std_string (p : option string) : M string :=
  match p with
  | Some bytes => mret (c_str bytes)
  | None => throw "basic_string: construction from null is not valid"
  end.

Definition LOG (level : LogLevel) (parts : list LogPart) : M unit :=
  fun w => (Returned tt, set_log (log w ++ [(level, parts)]) w).

(** [std::ifstream infile(path); infile.good()] *)
Definition ifstream_good (path : string) : M bool :=
  fun w => (Returned (bool_decide (path ∈ files w)), w).

(** Reading the member [mMosquitoLibHandler] of [*this]. *)
Definition get_mMosquitoLibHandler (this : nat) : M mosquitto_ptr :=
  fun w => match objects w !! this with
           | Some o => (Returned (mMosquitoLibHandler o), w)
           | None => (Undefined, w)
           end.

Definition put_mMosquitoLibHandler (this : nat) (h : mosquitto_ptr) : M unit :=
  fun w => (Returned tt,
            set_objects (<[this := {| mMosquitoLibHandler := h |}]> (objects w)) w).

(** The end of an object's lifetime: its storage no longer holds a
    [MqttClient]. *)
Definition end_lifetime (this : nat) : M unit :=
  fun w => (Returned tt, set_objects (delete this (objects w)) w).

(** [mSubscriptionHandlers[topic] = callback]: [operator[]] creates the
    entry when the key is new and the assignment replaces its value. *)
Definition assign_mSubscriptionHandlers (topic : string) (callback : CallbackType) : M unit :=
  fun w => (Returned tt,
            set_mSubscriptionHandlers
              (<[topic := callback]> (mSubscriptionHandlers w)) w).

Section Facade.

Variable E : Engine.

(** An engine call returning [int]. *)
Definition call (e : Event) : M Z :=
  fun w => (Returned (mosq_ret E (trace w) e), set_trace (trace w ++ [e]) w).

(** An engine call returning [void], and the call of a handler. *)
Definition call_void (e : Event) : M unit :=
  fun w => (Returned tt, set_trace (trace w ++ [e]) w).

(** [mosquitto_new], returning the handle. *)
Definition call_new (e : Event) : M mosquitto_ptr :=
  fun w => (Returned (mosq_new_ret E (trace w) e), set_trace (trace w ++ [e]) w).

(** ** Constants of the anonymous namespace *)

Definition kCertificatesFolder : string := "certificates".
Definition kCaCertificateFile : string := kCertificatesFolder +:+ "/ca.crt".
Definition kClientCertificateFile : string := kCertificatesFolder +:+ "/client01.crt".
Definition kClientKeyFile : string := kCertificatesFolder +:+ "/client01.key".
Definition kKeepaliveSec : Z := 60.
Definition kQoS : Z := 1.

(** ** Member functions *)

Definition getSubscriptionTable (this : nat) : M SubscriptionTable :=
  fun w => match objects w !! this with
           | Some _ => (Returned (mSubscriptionHandlers w), w)
           | None => (Undefined, w)
           end.

Definition setupOptions (this : nat) : M Z :=
  good ← ifstream_good kCaCertificateFile;
  (if negb good then mret tt else mret tt);;
  LOG DEBUG [Str "MOSQUITTO Using certificate: "; Str kCaCertificateFile];;
  let mosquitoErrorCode := MOSQ_ERR_UNKNOWN in
  h ← get_mMosquitoLibHandler this;
  mosquitoErrorCode ← call (mosquitto_tls_set h (c_str kCaCertificateFile)
                              (c_str kCertificatesFolder)
                              (c_str kClientCertificateFile)
                              (c_str kClientKeyFile) None);
  if negb (MOSQ_ERR_SUCCESS =? mosquitoErrorCode) then mret mosquitoErrorCode
  else
    let mqttProtocolVersion := MQTT_PROTOCOL_V311 in
    mosquitoErrorCode ← call (mosquitto_opts_set h MOSQ_OPT_PROTOCOL_VERSION
                                mqttProtocolVersion);
    if negb (MOSQ_ERR_SUCCESS =? mosquitoErrorCode) then mret mosquitoErrorCode
    else mret mosquitoErrorCode.

Definition connect (this : nat) (host : string) (port : Z) : M bool :=
  rc ← setupOptions this;
  if negb (MOSQ_ERR_SUCCESS =? rc) then mret false
  else
    LOG INFO [Str "Connecting to "; Str host; Str ":"; Num port; Str "..."];;
    h ← get_mMosquitoLibHandler this;
    mosquitoErrorCode ← call (mosquitto_connect_async h (c_str host) port kKeepaliveSec);
    if negb (MOSQ_ERR_SUCCESS =? mosquitoErrorCode) then mret false
    else
      LOG INFO [Str "Connection established"];;
      mosquitoErrorCode ← call (mosquitto_loop_start h);
      if negb (MOSQ_ERR_SUCCESS =? mosquitoErrorCode) then mret false
      else
        LOG INFO [Str "MOSQUITTO loop is started"];;
        mret true.

Definition disconnect (this : nat) : M bool :=
  h ← get_mMosquitoLibHandler this;
  mosquitoErrorCode ← call (mosquitto_disconnect h);
  if negb (MOSQ_ERR_SUCCESS =? mosquitoErrorCode) then mret false
  else mret true.

Definition send (this : nat) (topic message : string) : M bool :=
  LOG DEBUG [Str "Publishing to MQTT topic ["; Str topic; Str "]: "; Str message];;
  h ← get_mMosquitoLibHandler this;
  mosquitoErrorCode ← call (mosquitto_publish h None (c_str topic)
                              (static_cast_int (Z.of_nat (String.length message)))
                              message kQoS true);
  if negb (MOSQ_ERR_SUCCESS =? mosquitoErrorCode) then mret false
  else mret true.

Definition subscribe (this : nat) (topic : string) (callback : CallbackType) : M bool :=
  LOG DEBUG [Str "Subsribe to topic ["; Str topic; Str "]"];;
  h ← get_mMosquitoLibHandler this;
  mosquitoErrorCode ← call (mosquitto_subscribe h None (c_str topic) kQoS);
  if negb (MOSQ_ERR_SUCCESS =? mosquitoErrorCode) then mret false
  else
    assign_mSubscriptionHandlers topic callback;;
    mret true.

(** The constructor, run on the storage at address [this].  The default
    member initializer gives [mMosquitoLibHandler] the value [nullptr]
    before the body runs; when the body throws, the object never comes
    to life. *)
Definition MqttClient_ctor (this : nat) (deviceId username password : string) : M unit :=
  put_mMosquitoLibHandler this None;;
  mosquitoErrorCode ← call mosquitto_lib_init;
  if negb (MOSQ_ERR_SUCCESS =? mosquitoErrorCode) then
    let message := "Error while initializing MOSQUITTO library: "
                   +:+ mosq_strerror E mosquitoErrorCode in
    end_lifetime this;;
    throw message
  else
    h ← call_new (mosquitto_new (c_str deviceId) false this);
    put_mMosquitoLibHandler this h;;
    h ← get_mMosquitoLibHandler this;
    call_void (mosquitto_connect_callback_set h connectCallback_fn);;
    h ← get_mMosquitoLibHandler this;
    call_void (mosquitto_publish_callback_set h publishCallback_fn);;
    h ← get_mMosquitoLibHandler this;
    call_void (mosquitto_subscribe_callback_set h subscribeCallback_fn);;
    h ← get_mMosquitoLibHandler this;
    call_void (mosquitto_message_callback_set h messageCallback_fn);;
    h ← get_mMosquitoLibHandler this;
    call (mosquitto_username_pw_set h (c_str username) (c_str password));;
    mret tt.

(** The destructor: its body, then the end of the object's lifetime
    (the only member is a raw pointer, whose destruction does nothing). *)
Definition MqttClient_dtor (this : nat) : M unit :=
  disconnect this;;
  call mosquitto_lib_cleanup;;
  end_lifetime this.

(** ** The hooks the engine calls back *)

Definition connectCallback (mosq : mosquitto_ptr) (userdata : nat) (resultCode : Z) : M unit :=
  if negb (resultCode =? 0) then mret tt else mret tt.

Definition publishCallback (mosq : mosquitto_ptr) (userdata : nat) (mid : Z) : M unit :=
  LOG DEBUG [Str "MOSQUITTO Publish ACK"].

Definition subscribeCallback (mosq : mosquitto_ptr) (userdata : nat) (mid qos_count : Z)
    (granted_qos : list Z) : M unit :=
  LOG DEBUG [Str "MOSQUITTO Subscribe ACK"].

Definition messageCallback (mosq : mosquitto_ptr) (userdata : nat)
    (message : mosquitto_message) : M unit :=
  let payload := msg_payload message in
  LOG DEBUG [Str "Received new message from MQTT brocker for topic ['";
             CharPtr (Some (msg_topic message));
             Str ("']:" +:+ String (ascii_of_nat 10) EmptyString);
             CharPtr payload];;
  subscriptionTable ← getSubscriptionTable userdata;
  key ← std_string (Some (msg_topic message));
  match subscriptionTable !! key with
  | None => mret tt
  | Some None => mret tt
  | Some (Some f) =>
      topic_argument ← std_string (Some (msg_topic message));
      payload_argument ← std_string payload;
      call_void (handler_call f topic_argument payload_argument)
  end.

(** ** Sequences of operations on the facade *)

(** What the application and the engine can do to the facade. *)
Inductive Op : Type :=
  | op_ctor (this : nat) (deviceId username password : string)
  | op_dtor (this : nat)
  | op_connect (this : nat) (host : string) (port : Z)
  | op_disconnect (this : nat)
  | op_send (this : nat) (topic message : string)
  | op_subscribe (this : nat) (topic : string) (callback : CallbackType)
  | op_getSubscriptionTable (this : nat)
  | op_connectCallback (mosq : mosquitto_ptr) (userdata : nat) (resultCode : Z)
  | op_publishCallback (mosq : mosquitto_ptr) (userdata : nat) (mid : Z)
  | op_subscribeCallback (mosq : mosquitto_ptr) (userdata : nat) (mid qos_count : Z)
                         (granted_qos : list Z)
  | op_messageCallback (mosq : mosquitto_ptr) (userdata : nat) (message : mosquitto_message).

Definition run_op (o : Op) : M unit :=
  match o with
  | op_ctor this deviceId username password => MqttClient_ctor this deviceId username password
  | op_dtor this => MqttClient_dtor this
  | op_connect this host port => connect this host port;; mret tt
  | op_disconnect this => disconnect this;; mret tt
  | op_send this topic message => send this topic message;; mret tt
  | op_subscribe this topic callback => subscribe this topic callback;; mret tt
  | op_getSubscriptionTable this => getSubscriptionTable this;; mret tt
  | op_connectCallback mosq userdata resultCode => connectCallback mosq userdata resultCode
  | op_publishCallback mosq userdata mid => publishCallback mosq userdata mid
  | op_subscribeCallback mosq userdata mid qos_count granted_qos =>
      subscribeCallback mosq userdata mid qos_count granted_qos
  | op_messageCallback mosq userdata message => messageCallback mosq userdata message
  end.

(** One operation after the other; an operation left by an exception
    (thrown by the constructor, or by the message hook on a null
    payload) is over, and the run goes on from the world it left;
    undefined behaviour ends the run with no world to speak of. *)
Fixpoint run_ops (ops : list Op) (w : World) : option World :=
  match ops with
  | [] => Some w
  | o :: rest => match run_op o w with
                 | (Undefined, _) => None
                 | (_, w') => run_ops rest w'
                 end
  end.

End Facade.

(** ** Concrete worlds and engines *)

(** The world before any facade exists. *)
Definition initial_world (fs : gset string) : World :=
  {| trace := []; log := []; files := fs; objects := ∅;
     mSubscriptionHandlers := ∅ |}.

(** An engine that accepts every request and hands out handle 1. *)
Definition engine_ok : Engine :=
  {| mosq_ret := fun _ _ => MOSQ_ERR_SUCCESS;
     mosq_new_ret := fun _ _ => Some 1%nat;
     mosq_strerror := fun _ => "No error." |}.

(** An engine whose [mosquitto_new] fails while everything else succeeds. *)
Definition engine_no_handle : Engine :=
  {| mosq_ret := fun _ _ => MOSQ_ERR_SUCCESS;
     mosq_new_ret := fun _ _ => None;
     mosq_strerror := fun _ => "No error." |}.

(** An engine that refuses every request with [MOSQ_ERR_INVAL] (3). *)
Definition engine_fail : Engine :=
  {| mosq_ret := fun _ _ => 3;
     mosq_new_ret := fun _ _ => Some 1%nat;
     mosq_strerror := fun _ => "Invalid arguments provided." |}.

(** An engine that accepts everything but [mosquitto_disconnect], which
    it answers with [MOSQ_ERR_NO_CONN] (4). *)
Definition engine_not_connected : Engine :=
  {| mosq_ret := fun _ e => match e with
                            | mosquitto_disconnect _ => 4
                            | _ => MOSQ_ERR_SUCCESS
                            end;
     mosq_new_ret := fun _ _ => Some 1%nat;
     mosq_strerror := fun _ => "The client is not currently connected." |}.

(** One facade, constructed at address 7 in the initial world. *)
Definition world_one_facade : World :=
  snd (MqttClient_ctor engine_ok 7%nat "device-01" "user" "secret" (initial_world ∅)).

(** A second facade at address 8. *)
Definition world_two_facades : World :=
  snd (MqttClient_ctor engine_ok 8%nat "device-02" "user" "secret" world_one_facade).

(** The first facade has subscribed handler 5 to "sensors/t". *)
Definition world_subscribed : World :=
  snd (subscribe engine_ok 7%nat "sensors/t" (Some 5%nat) world_one_facade).

(** Three payload bytes: 'a', NUL, 'b'. *)
Definition binary_payload : string :=
  String "a" (String Ascii.zero (String "b" EmptyString)).

(** A message carrying these three bytes. *)
Definition binary_message : mosquitto_message :=
  {| msg_mid := 1;
     msg_topic := "sensors/t";
     msg_payload := Some binary_payload;
     msg_qos := 1;
     msg_retain := false |}.

(** A message whose payload is text. *)
Definition text_message : mosquitto_message :=
  {| msg_mid := 2;
     msg_topic := "sensors/t";
     msg_payload := Some "21.5"%string;
     msg_qos := 1;
     msg_retain := false |}.

(** A message of length 0, as one sent to clear a retained message:
    its payload pointer is null. *)
Definition empty_message : mosquitto_message :=
  {| msg_mid := 4;
     msg_topic := "sensors/t";
     msg_payload := None;
     msg_qos := 1;
     msg_retain := true |}.

(** ** The requests a live facade sends to the engine

    Names for the engine calls the member functions make on handle [h],
    used to state what a run leaves in the [trace]. *)

Definition tls_request (h : mosquitto_ptr) : Event :=
  mosquitto_tls_set h "certificates/ca.crt" "certificates"
    "certificates/client01.crt" "certificates/client01.key" None.

Definition protocol_request (h : mosquitto_ptr) : Event :=
  mosquitto_opts_set h MOSQ_OPT_PROTOCOL_VERSION MQTT_PROTOCOL_V311.

Definition connect_request (h : mosquitto_ptr) (host : string) (port : Z) : Event :=
  mosquitto_connect_async h (c_str host) port 60.

Definition loop_request (h : mosquitto_ptr) : Event := mosquitto_loop_start h.

Definition publish_request (h : mosquitto_ptr) (topic message : string) : Event :=
  mosquitto_publish h None (c_str topic)
    (static_cast_int (Z.of_nat (String.length message))) message 1 true.

Definition subscribe_request (h : mosquitto_ptr) (topic : string) : Event :=
  mosquitto_subscribe h None (c_str topic) 1.

(** The handle an engine call is made on, for the calls that take one. *)
Definition request_handle (e : Event) : option mosquitto_ptr :=
  match e with
  | mosquitto_destroy h
  | mosquitto_connect_callback_set h _
  | mosquitto_publish_callback_set h _
  | mosquitto_subscribe_callback_set h _
  | mosquitto_message_callback_set h _
  | mosquitto_username_pw_set h _ _
  | mosquitto_tls_set h _ _ _ _ _
  | mosquitto_opts_set h _ _
  | mosquitto_connect_async h _ _ _
  | mosquitto_loop_start h
  | mosquitto_disconnect h
  | mosquitto_publish h _ _ _ _ _ _
  | mosquitto_subscribe h _ _ _ => Some h
  | mosquitto_lib_init | mosquitto_lib_cleanup
  | mosquitto_new _ _ _ | handler_call _ _ _ => None
  end.

Definition is_connect_async (e : Event) : bool :=
  match e with mosquitto_connect_async _ _ _ _ => true | _ => false end.

Definition is_loop_start (e : Event) : bool :=
  match e with mosquitto_loop_start _ => true | _ => false end.

Definition is_destroy (e : Event) : bool :=
  match e with mosquitto_destroy _ => true | _ => false end.

Definition is_handler_call (e : Event) : bool :=
  match e with handler_call _ _ _ => true | _ => false end.

(** The parameters the facade fixes, on the requests that carry them. *)
Definition uses_fixed_parameters (e : Event) : bool :=
  match e with
  | mosquitto_connect_async _ _ _ keepalive => keepalive =? 60
  | mosquitto_opts_set _ option value =>
      (option =? MOSQ_OPT_PROTOCOL_VERSION) && (value =? MQTT_PROTOCOL_V311)
  | mosquitto_publish _ _ _ _ _ qos retain => (qos =? 1) && retain
  | mosquitto_subscribe _ _ _ qos => qos =? 1
  | _ => true
  end.

(** The same world with another set of files on disk. *)
Definition set_files (fs : gset string) (w : World) : World :=
  {| trace := trace w; log := log w; files := fs; objects := objects w;
     mSubscriptionHandlers := mSubscriptionHandlers w |}.

(** A string free of NUL bytes. *)
Fixpoint nul_free (s : string) : bool :=
  match s with
  | EmptyString => true
  | String c rest => negb (Ascii.eqb c Ascii.zero) && nul_free rest
  end.

(** [m] leaves the observation [f] of the world as it found it. *)
Definition keeps {A X : Type} (f : World -> X) (m : M A) : Prop :=
  forall w, f (snd (m w)) = f w.

(** An operation that begins or ends the lifetime of the object at [this]. *)
Definition touches_lifetime (this : nat) (o : Op) : bool :=
  match o with
  | op_ctor t _ _ _ | op_dtor t => bool_decide (t = this)
  | _ => false
  end.

(** ** Observations on operations and traces *)

(** The three acknowledgement hooks. *)
Definition is_ack_hook (o : Op) : bool :=
  match o with
  | op_connectCallback _ _ _ | op_publishCallback _ _ _
  | op_subscribeCallback _ _ _ _ _ => true
  | _ => false
  end.

(** A member function other than the constructor, called on [this],
    that talks to the engine. *)
Definition member_op_on (this : nat) (o : Op) : bool :=
  match o with
  | op_dtor t | op_connect t _ _ | op_disconnect t
  | op_send t _ _ | op_subscribe t _ _ => bool_decide (t = this)
  | _ => false
  end.

(** A [subscribe] to [topic], on whatever facade. *)
Definition subscribes_to (topic : string) (o : Op) : bool :=
  match o with
  | op_subscribe _ t _ => bool_decide (t = topic)
  | _ => false
  end.

Definition is_ctor_op (o : Op) : bool :=
  match o with op_ctor _ _ _ _ => true | _ => false end.

Definition is_dtor_op (o : Op) : bool :=
  match o with op_dtor _ => true | _ => false end.

Definition is_lib_init (e : Event) : bool :=
  match e with mosquitto_lib_init => true | _ => false end.

Definition is_lib_cleanup (e : Event) : bool :=
  match e with mosquitto_lib_cleanup => true | _ => false end.

Definition is_subscribe_request (e : Event) : bool :=
  match e with mosquitto_subscribe _ _ _ _ => true | _ => false end.

(** How many events of a trace satisfy [p]. *)
Definition count_events (p : Event -> bool) (t : list Event) : nat :=
  List.length (List.filter p t).

(** An engine that accepts one subscription and refuses every later one
    with [MOSQ_ERR_NOMEM] (1). *)
Definition engine_one_subscription : Engine :=
  {| mosq_ret := fun t e =>
       if is_subscribe_request e && existsb is_subscribe_request t
       then 1 else MOSQ_ERR_SUCCESS;
     mosq_new_ret := fun _ _ => Some 1%nat;
     mosq_strerror := fun _ => "Out of memory." |}.

(** Two facades, the first of which has subscribed handler 5 to
    "sensors/t". *)
Definition world_two_subscribed : World :=
  snd (subscribe engine_ok 7%nat "sensors/t" (Some 5%nat) world_two_facades).

(** A topic string with a NUL byte in it: 'a', NUL, 'b'. *)
Definition nul_topic : string :=
  String "a" (String Ascii.zero (String "b" EmptyString)).

(** A message on the topic "a". *)
Definition message_on_a : mosquitto_message :=
  {| msg_mid := 3;
     msg_topic := "a";
     msg_payload := Some "on"%string;
     msg_qos := 1;
     msg_retain := false |}.

(** * Properties *)

(** Unfolds the monad and the primitives so that a run of facade code
    becomes a term built from the engine's answers. *)
Ltac run_facade :=
  cbv [MqttClient_ctor MqttClient_dtor connect disconnect send subscribe
       setupOptions getSubscriptionTable messageCallback connectCallback
       publishCallback subscribeCallback std_string
       mbind M_bind mret M_ret throw LOG ifstream_good call call_void call_new
       get_mMosquitoLibHandler put_mMosquitoLibHandler end_lifetime
       assign_mSubscriptionHandlers];
  cbn [trace log files objects mSubscriptionHandlers
       set_trace set_log set_objects set_mSubscriptionHandlers fst snd].

(** Resolves the reads of [*this] that a run has left behind. *)
Ltac step_live :=
  repeat (rewrite ?lookup_insert_eq;
          cbn [trace log files objects mSubscriptionHandlers
               set_trace set_log set_objects set_mSubscriptionHandlers
               set_files fst snd mMosquitoLibHandler negb]).

Lemma eqb_success_false (rc : Z) :
  rc ≠ MOSQ_ERR_SUCCESS -> (MOSQ_ERR_SUCCESS =? rc) = false.
Proof. intros H. apply Z.eqb_neq. congruence. Qed.

Lemma eqb_success_true (rc : Z) :
  rc = MOSQ_ERR_SUCCESS -> (MOSQ_ERR_SUCCESS =? rc) = true.
Proof. intros ->. reflexivity. Qed.

(** ** C strings *)

Lemma c_str_nul_free (s : string) : nul_free s = true -> c_str s = s.
Proof.
  induction s as [|c rest IH]; cbn; [reflexivity|].
  destruct (Ascii.eqb c Ascii.zero); cbn; [discriminate|].
  intros H. now rewrite IH.
Qed.

Lemma c_str_is_nul_free (s : string) : nul_free (c_str s) = true.
Proof.
  induction s as [|c rest IH]; cbn; [reflexivity|].
  destruct (Ascii.eqb c Ascii.zero) eqn:Hc; cbn; [reflexivity|].
  now rewrite Hc, IH.
Qed.

Lemma c_str_idempotent (s : string) : c_str (c_str s) = c_str s.
Proof. apply c_str_nul_free, c_str_is_nul_free. Qed.

Lemma c_str_length (s : string) : (String.length (c_str s) <= String.length s)%nat.
Proof.
  induction s as [|c rest IH]; cbn; [lia|].
  destruct (Ascii.eqb c Ascii.zero); cbn; lia.
Qed.

Lemma static_cast_int_small (n : Z) :
  0 <= n < 2 ^ 31 -> static_cast_int n = n.
Proof.
  intros H. unfold static_cast_int.
  rewrite Z.mod_small by lia. lia.
Qed.

Lemma requests_as_in_source (h : mosquitto_ptr) (host topic message : string) (port : Z) :
  tls_request h = mosquitto_tls_set h (c_str kCaCertificateFile) (c_str kCertificatesFolder)
                    (c_str kClientCertificateFile) (c_str kClientKeyFile) None
  ∧ connect_request h host port = mosquitto_connect_async h (c_str host) port kKeepaliveSec
  ∧ publish_request h topic message =
      mosquitto_publish h None (c_str topic)
        (static_cast_int (Z.of_nat (String.length message))) message kQoS true
  ∧ subscribe_request h topic = mosquitto_subscribe h None (c_str topic) kQoS.
Proof. repeat split. Qed.

(** ** What each member function does on a live object *)

Section Operations.
Context (E : Engine).

Lemma subscribe_run this o topic callback w :
  objects w !! this = Some o ->
  subscribe E this topic callback w =
  let rc := mosq_ret E (trace w) (subscribe_request (mMosquitoLibHandler o) topic) in
  let w1 := set_trace (trace w ++ [subscribe_request (mMosquitoLibHandler o) topic])
              (set_log (log w ++ [(DEBUG, [Str "Subsribe to topic ["; Str topic; Str "]"])]) w) in
  if MOSQ_ERR_SUCCESS =? rc
  then (Returned true,
        set_mSubscriptionHandlers (<[topic := callback]> (mSubscriptionHandlers w)) w1)
  else (Returned false, w1).
Proof.
  intros Hlive. run_facade. rewrite Hlive. step_live.
  change (mosquitto_subscribe (mMosquitoLibHandler o) None (c_str topic) kQoS)
    with (subscribe_request (mMosquitoLibHandler o) topic).
  destruct (MOSQ_ERR_SUCCESS =? _); reflexivity.
Qed.

Lemma send_run this o topic message w :
  objects w !! this = Some o ->
  send E this topic message w =
  let rc := mosq_ret E (trace w) (publish_request (mMosquitoLibHandler o) topic message) in
  (Returned (MOSQ_ERR_SUCCESS =? rc),
   set_trace (trace w ++ [publish_request (mMosquitoLibHandler o) topic message])
     (set_log (log w ++ [(DEBUG, [Str "Publishing to MQTT topic ["; Str topic;
                                  Str "]: "; Str message])]) w)).
Proof.
  intros Hlive. run_facade. rewrite Hlive. step_live.
  change (mosquitto_publish _ _ _ _ _ _ _)
    with (publish_request (mMosquitoLibHandler o) topic message).
  destruct (MOSQ_ERR_SUCCESS =? _); reflexivity.
Qed.

Lemma disconnect_run this o w :
  objects w !! this = Some o ->
  disconnect E this w =
  (Returned (MOSQ_ERR_SUCCESS =? mosq_ret E (trace w) (mosquitto_disconnect (mMosquitoLibHandler o))),
   set_trace (trace w ++ [mosquitto_disconnect (mMosquitoLibHandler o)]) w).
Proof.
  intros Hlive. run_facade. rewrite Hlive. step_live.
  destruct (MOSQ_ERR_SUCCESS =? _); reflexivity.
Qed.

Lemma dtor_run this o w :
  objects w !! this = Some o ->
  MqttClient_dtor E this w =
  (Returned tt,
   set_objects (delete this (objects w))
     (set_trace (trace w ++ [mosquitto_disconnect (mMosquitoLibHandler o); mosquitto_lib_cleanup]) w)).
Proof.
  intros Hlive. run_facade. rewrite Hlive. step_live.
  destruct (MOSQ_ERR_SUCCESS =? _); cbn.
  all: unfold set_objects, set_trace; cbn. all: rewrite <- app_assoc; reflexivity.
Qed.

Lemma setupOptions_run this o w :
  objects w !! this = Some o ->
  setupOptions E this w =
  let h := mMosquitoLibHandler o in
  let r1 := mosq_ret E (trace w) (tls_request h) in
  let r2 := mosq_ret E (trace w ++ [tls_request h]) (protocol_request h) in
  let w0 := set_log (log w ++ [(DEBUG, [Str "MOSQUITTO Using certificate: ";
                                         Str kCaCertificateFile])]) w in
  if MOSQ_ERR_SUCCESS =? r1
  then (Returned r2, set_trace (trace w ++ [tls_request h; protocol_request h]) w0)
  else (Returned r1, set_trace (trace w ++ [tls_request h]) w0).
Proof.
  intros Hlive. run_facade.
  destruct (bool_decide _); cbn [negb]; step_live; rewrite Hlive; step_live.
  all: change (mosquitto_tls_set _ _ _ _ _ _) with (tls_request (mMosquitoLibHandler o)).
  all: change (mosquitto_opts_set _ _ _) with (protocol_request (mMosquitoLibHandler o)).
  all: destruct (MOSQ_ERR_SUCCESS =? mosq_ret E (trace w) _); cbn [negb]; try reflexivity.
  all: destruct (MOSQ_ERR_SUCCESS =? _); cbn [negb].
  all: unfold set_trace, set_log; cbn; rewrite <- ?app_assoc; reflexivity.
Qed.

Lemma connect_run this o host port w :
  objects w !! this = Some o ->
  connect E this host port w =
  let h := mMosquitoLibHandler o in
  let t := trace w in
  let r1 := mosq_ret E t (tls_request h) in
  let r2 := mosq_ret E (t ++ [tls_request h]) (protocol_request h) in
  let r3 := mosq_ret E (t ++ [tls_request h; protocol_request h])
              (connect_request h host port) in
  let r4 := mosq_ret E (t ++ [tls_request h; protocol_request h;
                              connect_request h host port]) (loop_request h) in
  let l0 := log w ++ [(DEBUG, [Str "MOSQUITTO Using certificate: ";
                               Str kCaCertificateFile])] in
  let l1 := l0 ++ [(INFO, [Str "Connecting to "; Str host; Str ":"; Num port; Str "..."])] in
  let l2 := l1 ++ [(INFO, [Str "Connection established"])] in
  let l3 := l2 ++ [(INFO, [Str "MOSQUITTO loop is started"])] in
  if negb (MOSQ_ERR_SUCCESS =? r1) then
    (Returned false, set_trace (t ++ [tls_request h]) (set_log l0 w))
  else if negb (MOSQ_ERR_SUCCESS =? r2) then
    (Returned false, set_trace (t ++ [tls_request h; protocol_request h]) (set_log l0 w))
  else if negb (MOSQ_ERR_SUCCESS =? r3) then
    (Returned false,
     set_trace (t ++ [tls_request h; protocol_request h; connect_request h host port])
       (set_log l1 w))
  else if negb (MOSQ_ERR_SUCCESS =? r4) then
    (Returned false,
     set_trace (t ++ [tls_request h; protocol_request h; connect_request h host port;
                      loop_request h]) (set_log l2 w))
  else
    (Returned true,
     set_trace (t ++ [tls_request h; protocol_request h; connect_request h host port;
                      loop_request h]) (set_log l3 w)).
Proof.
  intros Hlive. unfold connect, mbind, M_bind.
  rewrite (setupOptions_run this o w Hlive). cbv zeta.
  destruct (MOSQ_ERR_SUCCESS =? mosq_ret E (trace w) _) eqn:H1; cbn [negb].
  2:{ rewrite H1. reflexivity. }
  destruct (MOSQ_ERR_SUCCESS =? mosq_ret E (trace w ++ [_]) _) eqn:H2; cbn [negb].
  2: reflexivity.
  run_facade. rewrite Hlive. step_live.
  change (mosquitto_connect_async _ _ _ _)
    with (connect_request (mMosquitoLibHandler o) host port).
  change (mosquitto_loop_start _) with (loop_request (mMosquitoLibHandler o)).
  rewrite <- !app_assoc. cbn [app].
  destruct (MOSQ_ERR_SUCCESS =? mosq_ret E (trace w ++ [_; _]) _) eqn:H3; cbn [negb].
  2:{ unfold set_trace, set_log; cbn; rewrite <- ?app_assoc; reflexivity. }
  step_live. rewrite <- !app_assoc. cbn [app].
  destruct (MOSQ_ERR_SUCCESS =? mosq_ret E (trace w ++ [_; _; _]) _) eqn:H4; cbn [negb].
  all: unfold set_trace, set_log; cbn; rewrite <- ?app_assoc; reflexivity.
Qed.

(** On an address that holds no object the option setup, and with it
    [connect], has no defined behaviour. *)
Lemma setupOptions_dead this w :
  objects w !! this = None ->
  setupOptions E this w =
  (Undefined,
   set_log (log w ++ [(DEBUG, [Str "MOSQUITTO Using certificate: ";
                               Str kCaCertificateFile])]) w).
Proof.
  intros Hdead. run_facade.
  destruct (bool_decide _); cbn [negb]; step_live; rewrite Hdead; reflexivity.
Qed.

Lemma connect_dead this host port w :
  objects w !! this = None ->
  connect E this host port w =
  (Undefined,
   set_log (log w ++ [(DEBUG, [Str "MOSQUITTO Using certificate: ";
                               Str kCaCertificateFile])]) w).
Proof.
  intros Hdead. unfold connect, mbind, M_bind.
  now rewrite (setupOptions_dead this w Hdead).
Qed.

Lemma getSubscriptionTable_run this o w :
  objects w !! this = Some o ->
  getSubscriptionTable this w = (Returned (mSubscriptionHandlers w), w).
Proof. intros Hlive. unfold getSubscriptionTable. now rewrite Hlive. Qed.

Lemma messageCallback_run mosq userdata o message w :
  objects w !! userdata = Some o ->
  messageCallback mosq userdata message w =
  let w0 := set_log (log w ++
              [(DEBUG, [Str "Received new message from MQTT brocker for topic ['";
                        CharPtr (Some (msg_topic message));
                        Str ("']:" +:+ String (ascii_of_nat 10) EmptyString);
                        CharPtr (msg_payload message)])]) w in
  match mSubscriptionHandlers w !! c_str (msg_topic message) with
  | Some (Some f) =>
      match msg_payload message with
      | Some bytes =>
          (Returned tt,
           set_trace (trace w ++ [handler_call f (c_str (msg_topic message))
                                    (c_str bytes)]) w0)
      | None => (Thrown "basic_string: construction from null is not valid", w0)
      end
  | _ => (Returned tt, w0)
  end.
Proof.
  intros Hlive. run_facade. rewrite Hlive. step_live.
  destruct (mSubscriptionHandlers w !! c_str (msg_topic message)) as [[f|]|];
    try reflexivity.
  destruct (msg_payload message); reflexivity.
Qed.

End Operations.

(** ** Construction *)

Section Construction.
Context (E : Engine).

Lemma ctor_failure this deviceId username password w :
  mosq_ret E (trace w) mosquitto_lib_init ≠ MOSQ_ERR_SUCCESS ->
  MqttClient_ctor E this deviceId username password w =
  (Thrown ("Error while initializing MOSQUITTO library: "
           +:+ mosq_strerror E (mosq_ret E (trace w) mosquitto_lib_init)),
   set_objects (delete this (<[this := {| mMosquitoLibHandler := None |}]> (objects w)))
     (set_trace (trace w ++ [mosquitto_lib_init])
        (set_objects (<[this := {| mMosquitoLibHandler := None |}]> (objects w)) w))).
Proof.
  intros Hrc. run_facade. rewrite (eqb_success_false _ Hrc). reflexivity.
Qed.

Lemma ctor_success this deviceId username password w :
  mosq_ret E (trace w) mosquitto_lib_init = MOSQ_ERR_SUCCESS ->
  exists h w',
    MqttClient_ctor E this deviceId username password w = (Returned tt, w') ∧
    h = mosq_new_ret E (trace w ++ [mosquitto_lib_init])
          (mosquitto_new (c_str deviceId) false this) ∧
    trace w' = trace w ++
      [mosquitto_lib_init;
       mosquitto_new (c_str deviceId) false this;
       mosquitto_connect_callback_set h connectCallback_fn;
       mosquitto_publish_callback_set h publishCallback_fn;
       mosquitto_subscribe_callback_set h subscribeCallback_fn;
       mosquitto_message_callback_set h messageCallback_fn;
       mosquitto_username_pw_set h (c_str username) (c_str password)] ∧
    objects w' = <[this := {| mMosquitoLibHandler := h |}]> (objects w) ∧
    log w' = log w ∧ files w' = files w ∧
    mSubscriptionHandlers w' = mSubscriptionHandlers w.
Proof.
  intros Hrc. eexists _, _. split.
  - run_facade. rewrite (eqb_success_true _ Hrc). cbn [negb]. step_live. reflexivity.
  - cbn. rewrite <- !app_assoc, insert_insert_eq. repeat split.
Qed.

(** C5: construction throws exactly when [mosquitto_lib_init] reports an
    error, and then the exception's message ends with the engine's
    diagnostic text for that code; otherwise it completes, asks the
    engine for a handle bound to [deviceId] with clean-session [false],
    registers the connect, publish, subscribe and message hooks on it
    and sets the username and password on it, in this order, and the new
    object holds that handle. *)
Theorem construction_fails_iff_lib_init_fails
    (this : nat) (deviceId username password : string) (w : World) :
  exists out w',
    MqttClient_ctor E this deviceId username password w = (out, w')
    ∧ ((exists what, out = Thrown what)
         <-> mosq_ret E (trace w) mosquitto_lib_init ≠ MOSQ_ERR_SUCCESS)
    ∧ (mosq_ret E (trace w) mosquitto_lib_init ≠ MOSQ_ERR_SUCCESS ->
         out = Thrown ("Error while initializing MOSQUITTO library: "
                       +:+ mosq_strerror E (mosq_ret E (trace w) mosquitto_lib_init))
         ∧ trace w' = trace w ++ [mosquitto_lib_init]
         ∧ objects w' !! this = None)
    ∧ (mosq_ret E (trace w) mosquitto_lib_init = MOSQ_ERR_SUCCESS ->
         exists h,
           h = mosq_new_ret E (trace w ++ [mosquitto_lib_init])
                 (mosquitto_new (c_str deviceId) false this)
           ∧ out = Returned tt
           ∧ trace w' = trace w ++
               [mosquitto_lib_init;
                mosquitto_new (c_str deviceId) false this;
                mosquitto_connect_callback_set h connectCallback_fn;
                mosquitto_publish_callback_set h publishCallback_fn;
                mosquitto_subscribe_callback_set h subscribeCallback_fn;
                mosquitto_message_callback_set h messageCallback_fn;
                mosquitto_username_pw_set h (c_str username) (c_str password)]
           ∧ objects w' !! this = Some {| mMosquitoLibHandler := h |}).
Proof.
  destruct (decide (mosq_ret E (trace w) mosquitto_lib_init = MOSQ_ERR_SUCCESS))
    as [Hok|Hfail].
  - destruct (ctor_success this deviceId username password w Hok)
      as (h & w' & Hrun & Hh & Htr & Hobj & _).
    exists (Returned tt), w'. split; [exact Hrun|]. split; [|split].
    + split; [intros [what Hw]; discriminate | intros Hne; contradiction].
    + intros Hne; contradiction.
    + intros _. exists h. rewrite Hobj, lookup_insert_eq. auto.
  - rewrite (ctor_failure this deviceId username password w Hfail).
    eexists _, _. split; [reflexivity|].
    cbn [trace objects set_objects set_trace]. split; [|split].
    + split; [auto | eauto].
    + intros _. rewrite lookup_delete_eq. auto.
    + intros Hok; contradiction.
Qed.

End Construction.

(** ** Subscribing, publishing and connecting *)

Section Requests.
Context (E : Engine).

(** C2: on a live facade, [subscribe] returns [false] and leaves the
    registry as it was when the engine reports an error for the
    subscription request; when the engine accepts it, [subscribe]
    returns [true] and the registry is the old one with [topic] bound to
    [callback]: [topic] has that one handler, whatever it had before,
    and every other topic keeps its entry. *)
Theorem subscribe_registers_on_success_only
    (this : nat) (o : MqttClient) (topic : string) (callback : CallbackType) (w : World) :
  objects w !! this = Some o ->
  exists b w',
    subscribe E this topic callback w = (Returned b, w')
    ∧ trace w' = trace w ++ [subscribe_request (mMosquitoLibHandler o) topic]
    ∧ (mosq_ret E (trace w) (subscribe_request (mMosquitoLibHandler o) topic)
         ≠ MOSQ_ERR_SUCCESS ->
       b = false ∧ mSubscriptionHandlers w' = mSubscriptionHandlers w)
    ∧ (mosq_ret E (trace w) (subscribe_request (mMosquitoLibHandler o) topic)
         = MOSQ_ERR_SUCCESS ->
       b = true
       ∧ mSubscriptionHandlers w' = <[topic := callback]> (mSubscriptionHandlers w)
       ∧ (forall c, mSubscriptionHandlers w' !! topic = Some c <-> c = callback)
       ∧ (forall t, t ≠ topic ->
            mSubscriptionHandlers w' !! t = mSubscriptionHandlers w !! t)).
Proof.
  intros Hlive. rewrite (subscribe_run E this o topic callback w Hlive). cbv zeta.
  destruct (Z.eqb_spec MOSQ_ERR_SUCCESS
              (mosq_ret E (trace w) (subscribe_request (mMosquitoLibHandler o) topic)))
    as [Hok|Hfail].
  - eexists _, _. split; [reflexivity|]. cbn. split; [reflexivity|].
    split; [intros Hne; congruence|]. intros _.
    split; [reflexivity|]. split; [reflexivity|]. split.
    + intros c. rewrite lookup_insert_eq. split; congruence.
    + intros t Hne. now rewrite lookup_insert_ne.
  - eexists _, _. split; [reflexivity|]. cbn. split; [reflexivity|].
    split; [auto | intros Hok; congruence].
Qed.

(** C4: on a live facade, [send] makes one publish request carrying the
    topic (as a C string), the message with its length, QoS 1 and the
    retain flag set, and returns [false] exactly when the engine reports
    an error for it; [subscribe] makes its request at the same QoS 1;
    [connect] always asks for the TLS options first, sets the protocol
    version to MQTT 3.1.1 as soon as these are accepted, and asks for
    the connection with a keep-alive of 60 seconds as soon as both are
    accepted: its requests are these, cut short at the first one the
    engine refuses, and it makes no request with other parameters. *)
Theorem fixed_protocol_parameters
    (this : nat) (o : MqttClient) (w : World) :
  objects w !! this = Some o ->
  kQoS = 1 ∧ kKeepaliveSec = 60
  ∧ (forall topic message, exists b w',
       send E this topic message w = (Returned b, w')
       ∧ trace w' = trace w ++
           [mosquitto_publish (mMosquitoLibHandler o) None (c_str topic)
              (static_cast_int (Z.of_nat (String.length message))) message 1 true]
       ∧ (b = false <->
          mosq_ret E (trace w) (publish_request (mMosquitoLibHandler o) topic message)
            ≠ MOSQ_ERR_SUCCESS))
  ∧ (forall topic callback,
       trace (snd (subscribe E this topic callback w)) = trace w ++
         [mosquitto_subscribe (mMosquitoLibHandler o) None (c_str topic) 1])
  ∧ (forall host port, exists h tls version request r1 r2 r3 b w' calls,
       h = mMosquitoLibHandler o
       ∧ tls = mosquitto_tls_set h "certificates/ca.crt" "certificates"
                 "certificates/client01.crt" "certificates/client01.key" None
       ∧ version = mosquitto_opts_set h MOSQ_OPT_PROTOCOL_VERSION MQTT_PROTOCOL_V311
       ∧ request = mosquitto_connect_async h (c_str host) port 60
       ∧ r1 = mosq_ret E (trace w) tls
       ∧ r2 = mosq_ret E (trace w ++ [tls]) version
       ∧ r3 = mosq_ret E (trace w ++ [tls; version]) request
       ∧ connect E this host port w = (Returned b, w')
       ∧ trace w' = trace w ++ calls
       ∧ forallb uses_fixed_parameters calls = true
       ∧ (b = true -> version ∈ calls ∧ request ∈ calls)
       ∧ (r1 ≠ MOSQ_ERR_SUCCESS -> calls = [tls])
       ∧ (r1 = MOSQ_ERR_SUCCESS -> r2 ≠ MOSQ_ERR_SUCCESS -> calls = [tls; version])
       ∧ (r1 = MOSQ_ERR_SUCCESS -> r2 = MOSQ_ERR_SUCCESS -> r3 ≠ MOSQ_ERR_SUCCESS ->
          calls = [tls; version; request])
       ∧ (r1 = MOSQ_ERR_SUCCESS -> r2 = MOSQ_ERR_SUCCESS -> r3 = MOSQ_ERR_SUCCESS ->
          calls = [tls; version; request; mosquitto_loop_start h])).
Proof.
  intros Hlive. split; [reflexivity|]. split; [reflexivity|]. split; [|split].
  - intros topic message. rewrite (send_run E this o topic message w Hlive). cbv zeta.
    eexists _, _. split; [reflexivity|]. split; [reflexivity|].
    rewrite <- Z.eqb_neq, Z.eqb_sym. reflexivity.
  - intros topic callback. rewrite (subscribe_run E this o topic callback w Hlive).
    cbv zeta. destruct (MOSQ_ERR_SUCCESS =? _); reflexivity.
  - intros host port. eexists _, _, _, _, _, _, _.
    rewrite (connect_run E this o host port w Hlive). cbv zeta.
    change (tls_request (mMosquitoLibHandler o))
      with (mosquitto_tls_set (mMosquitoLibHandler o) "certificates/ca.crt"
              "certificates" "certificates/client01.crt"
              "certificates/client01.key" None).
    change (protocol_request (mMosquitoLibHandler o))
      with (mosquitto_opts_set (mMosquitoLibHandler o) MOSQ_OPT_PROTOCOL_VERSION
              MQTT_PROTOCOL_V311).
    change (connect_request (mMosquitoLibHandler o) host port)
      with (mosquitto_connect_async (mMosquitoLibHandler o) (c_str host) port 60).
    change (loop_request (mMosquitoLibHandler o))
      with (mosquitto_loop_start (mMosquitoLibHandler o)).
    destruct (Z.eqb_spec MOSQ_ERR_SUCCESS
                (mosq_ret E (trace w)
                   (mosquitto_tls_set (mMosquitoLibHandler o) "certificates/ca.crt"
                      "certificates" "certificates/client01.crt"
                      "certificates/client01.key" None))) as [H1|H1]; cbn [negb].
    2:{ eexists _, _, _. do 7 (split; [reflexivity|]). split; [reflexivity|].
        cbn [trace set_trace set_log]. split; [reflexivity|]. split; [reflexivity|].
        split; [discriminate|]. split; [reflexivity|].
        repeat split; intros; congruence. }
    destruct (Z.eqb_spec MOSQ_ERR_SUCCESS
                (mosq_ret E (trace w ++ [mosquitto_tls_set (mMosquitoLibHandler o)
                      "certificates/ca.crt" "certificates" "certificates/client01.crt"
                      "certificates/client01.key" None])
                   (mosquitto_opts_set (mMosquitoLibHandler o)
                      MOSQ_OPT_PROTOCOL_VERSION MQTT_PROTOCOL_V311))) as [H2|H2];
      cbn [negb].
    2:{ eexists _, _, _. do 7 (split; [reflexivity|]). split; [reflexivity|].
        cbn [trace set_trace set_log]. split; [reflexivity|]. split; [reflexivity|].
        split; [discriminate|]. split; [intros; congruence|].
        split; [reflexivity|]. repeat split; intros; congruence. }
    destruct (Z.eqb_spec MOSQ_ERR_SUCCESS
                (mosq_ret E (trace w ++ [mosquitto_tls_set (mMosquitoLibHandler o)
                      "certificates/ca.crt" "certificates" "certificates/client01.crt"
                      "certificates/client01.key" None;
                    mosquitto_opts_set (mMosquitoLibHandler o)
                      MOSQ_OPT_PROTOCOL_VERSION MQTT_PROTOCOL_V311])
                   (mosquitto_connect_async (mMosquitoLibHandler o) (c_str host)
                      port 60))) as [H3|H3];
      cbn [negb].
    2:{ eexists _, _, _. do 7 (split; [reflexivity|]). split; [reflexivity|].
        cbn [trace set_trace set_log]. split; [reflexivity|]. split; [reflexivity|].
        split; [discriminate|]. split; [intros; congruence|].
        split; [intros; congruence|]. split; [reflexivity|]. intros; congruence. }
    destruct (negb (MOSQ_ERR_SUCCESS =? _)).
    all: eexists _, _, _; do 7 (split; [reflexivity|]); (split; [reflexivity|]).
    all: cbn [trace set_trace set_log]; (split; [reflexivity|]).
    all: split; [reflexivity|].
    all: split;
      [ first [ discriminate
              | intros _; split;
                [ apply list_elem_of_further, list_elem_of_here
                | do 2 apply list_elem_of_further; apply list_elem_of_here ] ] |].
    all: split; [intros; congruence|].
    all: split; [intros; congruence|].
    all: split; [intros; congruence|].
    all: intros; reflexivity.
Qed.

(** C3: on a live facade, [connect] returns [true] exactly when the
    engine accepts, one after the other, the TLS and protocol options,
    the asynchronous connection request and the start of the loop, and
    then these four requests were made in this order; when the option
    step reports an error, [connect] returns [false] and has made no
    connection request and no loop start. *)
Theorem connect_true_iff_all_steps_succeed
    (this : nat) (o : MqttClient) (host : string) (port : Z) (w : World) :
  objects w !! this = Some o ->
  exists h r1 r2 r3 r4 b w',
    h = mMosquitoLibHandler o
    ∧ r1 = mosq_ret E (trace w) (tls_request h)
    ∧ r2 = mosq_ret E (trace w ++ [tls_request h]) (protocol_request h)
    ∧ r3 = mosq_ret E (trace w ++ [tls_request h; protocol_request h])
             (connect_request h host port)
    ∧ r4 = mosq_ret E (trace w ++ [tls_request h; protocol_request h;
                                   connect_request h host port]) (loop_request h)
    ∧ connect E this host port w = (Returned b, w')
    ∧ (b = true <->
       (r1 = MOSQ_ERR_SUCCESS ∧ r2 = MOSQ_ERR_SUCCESS)
       ∧ r3 = MOSQ_ERR_SUCCESS ∧ r4 = MOSQ_ERR_SUCCESS)
    ∧ (b = true ->
       trace w' = trace w ++ [tls_request h; protocol_request h;
                              connect_request h host port; loop_request h])
    ∧ (¬ (r1 = MOSQ_ERR_SUCCESS ∧ r2 = MOSQ_ERR_SUCCESS) ->
       b = false
       ∧ exists calls, trace w' = trace w ++ calls
           ∧ forallb (fun e => negb (is_connect_async e || is_loop_start e)) calls = true)
    ∧ (r1 = MOSQ_ERR_SUCCESS ∧ r2 = MOSQ_ERR_SUCCESS -> r3 ≠ MOSQ_ERR_SUCCESS ->
       b = false
       ∧ trace w' = trace w ++ [tls_request h; protocol_request h;
                                connect_request h host port]).
Proof.
  intros Hlive. eexists _, _, _, _, _.
  rewrite (connect_run E this o host port w Hlive). cbv zeta.
  destruct (Z.eqb_spec MOSQ_ERR_SUCCESS
              (mosq_ret E (trace w) (tls_request (mMosquitoLibHandler o)))) as [H1|H1];
    cbn [negb].
  2:{ eexists _, _. do 5 (split; [reflexivity|]). split; [reflexivity|].
      cbn [trace set_trace set_log]. split; [|split; [|split]].
      - split; [discriminate | intros [[? _] _]; congruence].
      - discriminate.
      - intros _. split; [reflexivity|]. eexists. split; reflexivity.
      - intros [? _]. congruence. }
  destruct (Z.eqb_spec MOSQ_ERR_SUCCESS
              (mosq_ret E (trace w ++ [tls_request (mMosquitoLibHandler o)])
                 (protocol_request (mMosquitoLibHandler o)))) as [H2|H2];
    cbn [negb].
  2:{ eexists _, _. do 5 (split; [reflexivity|]). split; [reflexivity|].
      cbn [trace set_trace set_log]. split; [|split; [|split]].
      - split; [discriminate | intros [[_ ?] _]; congruence].
      - discriminate.
      - intros _. split; [reflexivity|]. eexists. split; reflexivity.
      - intros [_ ?]. congruence. }
  destruct (Z.eqb_spec MOSQ_ERR_SUCCESS
              (mosq_ret E (trace w ++ [tls_request (mMosquitoLibHandler o);
                                       protocol_request (mMosquitoLibHandler o)])
                 (connect_request (mMosquitoLibHandler o) host port))) as [H3|H3];
    cbn [negb].
  2:{ eexists _, _. do 5 (split; [reflexivity|]). split; [reflexivity|].
      cbn [trace set_trace set_log]. split; [|split; [|split]].
      - split; [discriminate | intros [_ [? _]]; congruence].
      - discriminate.
      - intros Hn. exfalso. apply Hn. split; congruence.
      - intros _ _. split; reflexivity. }
  destruct (Z.eqb_spec MOSQ_ERR_SUCCESS
              (mosq_ret E (trace w ++ [tls_request (mMosquitoLibHandler o);
                                       protocol_request (mMosquitoLibHandler o);
                                       connect_request (mMosquitoLibHandler o) host port])
                 (loop_request (mMosquitoLibHandler o)))) as [H4|H4];
    cbn [negb].
  all: eexists _, _; do 5 (split; [reflexivity|]); (split; [reflexivity|]).
  all: cbn [trace set_trace set_log]; (split; [|split; [|split]]).
  - split; [intros _; repeat split; congruence | reflexivity].
  - reflexivity.
  - intros Hn. exfalso. apply Hn. split; congruence.
  - intros _ Hn. congruence.
  - split; [discriminate | intros [_ [_ ?]]; congruence].
  - discriminate.
  - intros Hn. exfalso. apply Hn. split; congruence.
  - intros _ Hn. congruence.
Qed.

End Requests.

(** ** Frame reasoning: what a block of facade code leaves alone *)

Lemma keeps_ret {A X : Type} (f : World -> X) (a : A) : keeps f (mret a).
Proof. intros w. reflexivity. Qed.

Lemma keeps_bind {A B X : Type} (f : World -> X) (m : M A) (k : A -> M B) :
  keeps f m -> (forall a, keeps f (k a)) -> keeps f (m ≫= k).
Proof.
  intros Hm Hk w. unfold mbind, M_bind. specialize (Hm w).
  destruct (m w) as [[a|what|] w1]; cbn [snd] in *; [|assumption..].
  now rewrite Hk.
Qed.

Lemma keeps_std_string {X : Type} (f : World -> X) (p : option string) :
  keeps f (std_string p).
Proof. intros w. now destruct p. Qed.

(** A primitive that does not write what [f] reads. *)
Ltac keeps_leaf :=
  let w := fresh "w" in
  intros w;
  cbv [mret M_ret throw LOG ifstream_good call call_void call_new
       get_mMosquitoLibHandler put_mMosquitoLibHandler end_lifetime
       getSubscriptionTable assign_mSubscriptionHandlers];
  cbv beta;
  try match goal with
      | |- context [match objects w !! ?t with _ => _ end] =>
          destruct (objects w !! t) eqn:?
      end;
  cbn [fst snd trace log files objects mSubscriptionHandlers
       set_trace set_log set_objects set_mSubscriptionHandlers];
  first [ reflexivity
        | rewrite lookup_insert_ne by congruence; reflexivity
        | rewrite lookup_delete_ne by congruence; reflexivity ].

(** Walks through a block of facade code, one statement at a time. *)
Ltac frame_walk :=
  repeat first
    [ assumption
    | apply keeps_std_string
    | apply keeps_bind; [|intros ?]
    | match goal with
      | |- keeps _ (if ?c then _ else _) => destruct c
      | |- keeps _ (match ?x with _ => _ end) => destruct x
      | |- keeps _ (let _ := _ in _) => cbv zeta
      end
    | solve [keeps_leaf] ].

Section Frame.
Context (E : Engine).

(** The member functions other than [subscribe], and the hooks, do not
    write the registry. *)

Lemma keeps_registry_setupOptions this :
  keeps mSubscriptionHandlers (setupOptions E this).
Proof. unfold setupOptions. frame_walk. Qed.

Lemma keeps_registry_connect this host port :
  keeps mSubscriptionHandlers (connect E this host port).
Proof. unfold connect. pose proof (keeps_registry_setupOptions this). frame_walk. Qed.

Lemma keeps_registry_disconnect this :
  keeps mSubscriptionHandlers (disconnect E this).
Proof. unfold disconnect. frame_walk. Qed.

Lemma keeps_registry_send this topic message :
  keeps mSubscriptionHandlers (send E this topic message).
Proof. unfold send. frame_walk. Qed.

Lemma keeps_registry_ctor this deviceId username password :
  keeps mSubscriptionHandlers (MqttClient_ctor E this deviceId username password).
Proof. unfold MqttClient_ctor. frame_walk. Qed.

Lemma keeps_registry_dtor this :
  keeps mSubscriptionHandlers (MqttClient_dtor E this).
Proof. unfold MqttClient_dtor. pose proof (keeps_registry_disconnect this). frame_walk. Qed.

Lemma keeps_registry_messageCallback mosq userdata message :
  keeps mSubscriptionHandlers (messageCallback mosq userdata message).
Proof. unfold messageCallback. frame_walk. Qed.

(** Only the constructor and the destructor run on [this] change which
    object lives at [this] and what handle it holds. *)

Lemma keeps_object_setupOptions this t :
  keeps (fun w => objects w !! this) (setupOptions E t).
Proof. unfold setupOptions. frame_walk. Qed.

Lemma keeps_object_connect this t host port :
  keeps (fun w => objects w !! this) (connect E t host port).
Proof. unfold connect. pose proof (keeps_object_setupOptions this t). frame_walk. Qed.

Lemma keeps_object_disconnect this t :
  keeps (fun w => objects w !! this) (disconnect E t).
Proof. unfold disconnect. frame_walk. Qed.

Lemma keeps_object_send this t topic message :
  keeps (fun w => objects w !! this) (send E t topic message).
Proof. unfold send. frame_walk. Qed.

Lemma keeps_object_subscribe this t topic callback :
  keeps (fun w => objects w !! this) (subscribe E t topic callback).
Proof. unfold subscribe. frame_walk. Qed.

Lemma keeps_object_messageCallback this mosq userdata message :
  keeps (fun w => objects w !! this) (messageCallback mosq userdata message).
Proof. unfold messageCallback. frame_walk. Qed.

Lemma keeps_object_ctor this t deviceId username password :
  t ≠ this ->
  keeps (fun w => objects w !! this) (MqttClient_ctor E t deviceId username password).
Proof. intros Hne. unfold MqttClient_ctor. frame_walk. Qed.

Lemma keeps_object_dtor this t :
  t ≠ this ->
  keeps (fun w => objects w !! this) (MqttClient_dtor E t).
Proof.
  intros Hne. unfold MqttClient_dtor.
  pose proof (keeps_object_disconnect this t). frame_walk.
Qed.

Lemma run_op_keeps_object this o :
  touches_lifetime this o = false ->
  keeps (fun w => objects w !! this) (run_op E o).
Proof.
  destruct o; cbn [touches_lifetime run_op]; intros Ht;
    try (apply bool_decide_eq_false in Ht).
  - now apply keeps_object_ctor.
  - now apply keeps_object_dtor.
  - pose proof (keeps_object_connect this this0 host port). frame_walk.
  - pose proof (keeps_object_disconnect this this0). frame_walk.
  - pose proof (keeps_object_send this this0 topic message). frame_walk.
  - pose proof (keeps_object_subscribe this this0 topic callback). frame_walk.
  - frame_walk.
  - unfold connectCallback. frame_walk.
  - unfold publishCallback. frame_walk.
  - unfold subscribeCallback. frame_walk.
  - apply keeps_object_messageCallback.
Qed.

Lemma run_ops_keeps_object this ops :
  forallb (fun o => negb (touches_lifetime this o)) ops = true ->
  forall w w', run_ops E ops w = Some w' -> objects w' !! this = objects w !! this.
Proof.
  induction ops as [|o rest IH]; cbn [forallb run_ops]; intros Hall w w' Hrun.
  - now injection Hrun as <-.
  - apply andb_prop in Hall as [Ho Hrest]. apply negb_true_iff in Ho.
    pose proof (run_op_keeps_object this o Ho w) as Hkeep.
    destruct (run_op E o w) as [[[]|what|] w1]; cbn [snd] in Hkeep;
      [| |discriminate]; rewrite <- Hkeep; now apply IH.
Qed.

(** [subscribe] either leaves the registry alone and does not return
    [true], or returns [true] and binds its topic. *)
Lemma subscribe_registry this topic callback w :
  (fst (subscribe E this topic callback w) = Returned true
   ∧ mSubscriptionHandlers (snd (subscribe E this topic callback w))
     = <[topic := callback]> (mSubscriptionHandlers w))
  ∨ (fst (subscribe E this topic callback w) ≠ Returned true
     ∧ mSubscriptionHandlers (snd (subscribe E this topic callback w))
       = mSubscriptionHandlers w).
Proof.
  destruct (objects w !! this) as [o|] eqn:Hlive.
  - rewrite (subscribe_run E this o topic callback w Hlive). cbv zeta.
    destruct (MOSQ_ERR_SUCCESS =? _); [left | right]; split; try reflexivity.
    discriminate.
  - right. run_facade. rewrite Hlive. split; [discriminate | reflexivity].
Qed.

Lemma run_op_registry o w :
  mSubscriptionHandlers (snd (run_op E o w)) = mSubscriptionHandlers w
  ∨ exists this topic callback,
      o = op_subscribe this topic callback
      ∧ fst (subscribe E this topic callback w) = Returned true
      ∧ mSubscriptionHandlers (snd (run_op E o w))
        = <[topic := callback]> (mSubscriptionHandlers w).
Proof.
  destruct o; cbn [run_op].
  6:{ destruct (subscribe_registry this topic callback w) as [[Hb Hreg]|[Hb Hreg]].
      - right. exists this, topic, callback. split; [reflexivity|]. split; [exact Hb|].
        unfold mbind, M_bind.
        destruct (subscribe E this topic callback w) as [[b|what|] w1];
          cbn [fst snd] in *; try discriminate. exact Hreg.
      - left. unfold mbind, M_bind.
        destruct (subscribe E this topic callback w) as [[b|what|] w1];
          cbn [fst snd] in *; exact Hreg. }
  all: left.
  - apply keeps_registry_ctor.
  - apply keeps_registry_dtor.
  - pose proof (keeps_registry_connect this host port).
    apply (keeps_bind mSubscriptionHandlers); [|intros ?]; frame_walk.
  - pose proof (keeps_registry_disconnect this).
    apply (keeps_bind mSubscriptionHandlers); [|intros ?]; frame_walk.
  - pose proof (keeps_registry_send this topic message).
    apply (keeps_bind mSubscriptionHandlers); [|intros ?]; frame_walk.
  - apply (keeps_bind mSubscriptionHandlers); [|intros ?]; frame_walk.
  - assert (keeps mSubscriptionHandlers (connectCallback mosq userdata resultCode)) as Hk
      by (unfold connectCallback; frame_walk). apply Hk.
  - assert (keeps mSubscriptionHandlers (publishCallback mosq userdata mid)) as Hk
      by (unfold publishCallback; frame_walk). apply Hk.
  - assert (keeps mSubscriptionHandlers
              (subscribeCallback mosq userdata mid qos_count granted_qos)) as Hk
      by (unfold subscribeCallback; frame_walk). apply Hk.
  - apply keeps_registry_messageCallback.
Qed.

(** C6: an operation changes the registry only if it is a [subscribe]
    that returns [true], which binds its topic; in particular [connect],
    [disconnect], [send], [getSubscriptionTable], the constructor, the
    destructor and the four hooks leave it as it was; and along any run
    of operations every topic that is registered stays registered. *)
Theorem registry_written_by_subscribe_only :
  (forall o w,
     mSubscriptionHandlers (snd (run_op E o w)) ≠ mSubscriptionHandlers w ->
     exists this topic callback,
       o = op_subscribe this topic callback
       ∧ fst (subscribe E this topic callback w) = Returned true
       ∧ mSubscriptionHandlers (snd (run_op E o w))
         = <[topic := callback]> (mSubscriptionHandlers w))
  ∧ (forall o w,
       (forall this topic callback, o ≠ op_subscribe this topic callback) ->
       mSubscriptionHandlers (snd (run_op E o w)) = mSubscriptionHandlers w)
  ∧ (forall ops w w',
       run_ops E ops w = Some w' ->
       dom (mSubscriptionHandlers w) ⊆ dom (mSubscriptionHandlers w')).
Proof.
  split; [|split].
  - intros o w Hchanged.
    destruct (run_op_registry o w) as [Hsame|Hsub]; [contradiction | exact Hsub].
  - intros o w Hnot.
    destruct (run_op_registry o w) as [Hsame|(this & topic & callback & Ho & _)];
      [exact Hsame | exfalso; exact (Hnot _ _ _ Ho)].
  - induction ops as [|o rest IH]; cbn [run_ops]; intros w w' Hrun.
    + now injection Hrun as <-.
    + assert (dom (mSubscriptionHandlers w)
                ⊆ dom (mSubscriptionHandlers (snd (run_op E o w)))) as Hstep.
      { destruct (run_op_registry o w) as [->|(? & topic & callback & _ & _ & ->)];
          [reflexivity|]. rewrite dom_insert_L. set_solver. }
      destruct (run_op E o w) as [[[]|what|] w1]; cbn [snd] in Hstep;
        [| |discriminate]; (etransitivity; [exact Hstep | now apply IH]).
Qed.

End Frame.

(** ** The CA certificate check, shared state and the null handle *)

Section Instances.
Context (E : Engine).

Lemma setupOptions_files this fs w :
  setupOptions E this (set_files fs w) =
  (fst (setupOptions E this w), set_files fs (snd (setupOptions E this w))).
Proof.
  destruct (objects w !! this) as [o|] eqn:Hlive.
  - rewrite (setupOptions_run E this o w Hlive).
    rewrite (setupOptions_run E this o (set_files fs w) Hlive). cbv zeta.
    cbn [trace log set_files].
    destruct (MOSQ_ERR_SUCCESS =? _); reflexivity.
  - rewrite (setupOptions_dead E this w Hlive).
    now rewrite (setupOptions_dead E this (set_files fs w) Hlive).
Qed.

Lemma connect_files this host port fs w :
  connect E this host port (set_files fs w) =
  (fst (connect E this host port w), set_files fs (snd (connect E this host port w))).
Proof.
  destruct (objects w !! this) as [o|] eqn:Hlive.
  - rewrite (connect_run E this o host port w Hlive).
    rewrite (connect_run E this o host port (set_files fs w) Hlive). cbv zeta.
    cbn [trace log set_files].
    repeat match goal with |- context [negb (MOSQ_ERR_SUCCESS =? ?x)] =>
      destruct (negb (MOSQ_ERR_SUCCESS =? x)) end; reflexivity.
  - rewrite (connect_dead E this host port w Hlive).
    now rewrite (connect_dead E this host port (set_files fs w) Hlive).
Qed.

(** C7: running [connect] (and the option setup inside it) in two worlds
    that differ only in the files on disk, so in particular in whether
    the CA certificate exists, gives the same outcome and the same
    engine calls, log, objects and registry, the engine answering alike:
    the existence check changes nothing that is returned or done. *)
Theorem connect_independent_of_ca_file
    (this : nat) (host : string) (port : Z) (fs : gset string) (w : World) :
  fst (connect E this host port (set_files fs w)) = fst (connect E this host port w)
  ∧ snd (connect E this host port (set_files fs w))
    = set_files fs (snd (connect E this host port w))
  ∧ fst (setupOptions E this (set_files fs w)) = fst (setupOptions E this w)
  ∧ trace (snd (connect E this host port (set_files fs w)))
    = trace (snd (connect E this host port w))
  ∧ log (snd (connect E this host port (set_files fs w)))
    = log (snd (connect E this host port w)).
Proof.
  rewrite connect_files, setupOptions_files. cbn [fst snd]. repeat split.
Qed.

(** The registry belongs to no instance: when [subscribe] on the
    facade at [a] returns [true], the table obtained through any live
    facade at [b] binds the topic to the handler just given; a message
    on that topic arriving at the hook with [b] as its user data calls
    that handler once when its payload pointer is not null, and makes
    the hook throw, without any call, when it is. *)
Lemma shared_registry_dispatch
    (a b : nat) (ob : MqttClient) (topic : string) (callback : CallbackType) (w : World) :
  objects w !! b = Some ob ->
  fst (subscribe E a topic callback w) = Returned true ->
  exists w1,
    w1 = snd (subscribe E a topic callback w)
    ∧ (exists table,
         getSubscriptionTable b w1 = (Returned table, w1)
         ∧ table !! topic = Some callback)
    ∧ (forall f mosq message bytes,
         callback = Some f -> c_str (msg_topic message) = topic ->
         msg_payload message = Some bytes ->
         exists w2,
           messageCallback mosq b message w1 = (Returned tt, w2)
           ∧ trace w2 = trace w1 ++ [handler_call f topic (c_str bytes)])
    ∧ (forall f mosq message,
         callback = Some f -> c_str (msg_topic message) = topic ->
         msg_payload message = None ->
         exists what w2,
           messageCallback mosq b message w1 = (Thrown what, w2)
           ∧ trace w2 = trace w1).
Proof.
  intros Hb Htrue. eexists. split; [reflexivity|].
  pose proof (keeps_object_subscribe E b a topic callback w) as Hobj.
  cbn beta in Hobj. rewrite Hb in Hobj.
  destruct (subscribe_registry E a topic callback w) as [[_ Hreg]|[Hne _]];
    [|contradiction].
  split; [|split].
  - exists (mSubscriptionHandlers (snd (subscribe E a topic callback w))). split.
    + apply (getSubscriptionTable_run b ob). exact Hobj.
    + rewrite Hreg. apply lookup_insert_eq.
  - intros f mosq message bytes -> Htopic Hpayload.
    rewrite (messageCallback_run mosq b ob message _ Hobj). cbv zeta.
    rewrite Htopic, Hreg, lookup_insert_eq, Hpayload. eexists. split; reflexivity.
  - intros f mosq message -> Htopic Hpayload.
    rewrite (messageCallback_run mosq b ob message _ Hobj). cbv zeta.
    rewrite Htopic, Hreg, lookup_insert_eq, Hpayload. eexists _, _. split; reflexivity.
Qed.

(** C10: when [mosquitto_lib_init] succeeds and [mosquitto_new] returns
    a null handle, construction still completes, the object holds the
    null handle, and after any run of operations that neither destroys
    nor reconstructs it the object still does: [connect] (from its first
    request on), [disconnect], [send], [subscribe] and the destructor
    make their engine calls on the null handle. *)
Theorem null_handle_is_never_checked
    (this : nat) (deviceId username password : string) (w : World) :
  mosq_ret E (trace w) mosquitto_lib_init = MOSQ_ERR_SUCCESS ->
  mosq_new_ret E (trace w ++ [mosquitto_lib_init])
    (mosquitto_new (c_str deviceId) false this) = None ->
  exists w0,
    MqttClient_ctor E this deviceId username password w = (Returned tt, w0)
    ∧ objects w0 !! this = Some {| mMosquitoLibHandler := None |}
    ∧ forall ops w',
        forallb (fun o => negb (touches_lifetime this o)) ops = true ->
        run_ops E ops w0 = Some w' ->
        objects w' !! this = Some {| mMosquitoLibHandler := None |}
        ∧ (forall host port, exists rest,
             trace (snd (connect E this host port w'))
             = trace w' ++ tls_request None :: rest
             ∧ Forall (fun e => request_handle e = Some None) (tls_request None :: rest))
        ∧ trace (snd (disconnect E this w')) = trace w' ++ [mosquitto_disconnect None]
        ∧ (forall topic message,
             trace (snd (send E this topic message w'))
             = trace w' ++ [publish_request None topic message])
        ∧ (forall topic callback,
             trace (snd (subscribe E this topic callback w'))
             = trace w' ++ [subscribe_request None topic])
        ∧ trace (snd (MqttClient_dtor E this w'))
          = trace w' ++ [mosquitto_disconnect None; mosquitto_lib_cleanup].
Proof.
  intros Hinit Hnew.
  destruct (ctor_success E this deviceId username password w Hinit)
    as (h & w0 & Hrun & Hh & _ & Hobj & _).
  rewrite Hnew in Hh. subst h.
  exists w0. split; [exact Hrun|].
  assert (objects w0 !! this = Some {| mMosquitoLibHandler := None |}) as Hlive0
    by (rewrite Hobj; apply lookup_insert_eq).
  split; [exact Hlive0|].
  intros ops w' Hops Hrunops.
  pose proof (run_ops_keeps_object E this ops Hops w0 w' Hrunops) as Hlive.
  rewrite Hlive0 in Hlive. split; [exact Hlive|]. split; [|split; [|split; [|split]]].
  - intros host port. rewrite (connect_run E this _ host port w' Hlive). cbv zeta.
    cbn [mMosquitoLibHandler].
    repeat match goal with |- context [negb (MOSQ_ERR_SUCCESS =? ?x)] =>
      destruct (negb (MOSQ_ERR_SUCCESS =? x)) end.
    all: eexists; split; [reflexivity|]; repeat constructor.
  - now rewrite (disconnect_run E this _ w' Hlive).
  - intros topic message. now rewrite (send_run E this _ topic message w' Hlive).
  - intros topic callback. rewrite (subscribe_run E this _ topic callback w' Hlive).
    cbv zeta. cbn [mMosquitoLibHandler]. destruct (MOSQ_ERR_SUCCESS =? _); reflexivity.
  - now rewrite (dtor_run E this _ w' Hlive).
Qed.

End Instances.

(** ** Dispatch of inbound messages *)

Section Dispatch.

(** With a handler registered for the message's topic and a payload
    pointer that is not null, the hook calls the handler once, with the
    topic and the payload read as C strings. *)
Lemma messageCallback_dispatch mosq userdata o message f bytes w :
  objects w !! userdata = Some o ->
  mSubscriptionHandlers w !! c_str (msg_topic message) = Some (Some f) ->
  msg_payload message = Some bytes ->
  exists w',
    messageCallback mosq userdata message w = (Returned tt, w')
    ∧ trace w' = trace w ++ [handler_call f (c_str (msg_topic message)) (c_str bytes)]
    ∧ mSubscriptionHandlers w' = mSubscriptionHandlers w.
Proof.
  intros Hlive Hreg Hpayload.
  rewrite (messageCallback_run mosq userdata o message w Hlive).
  cbv zeta. rewrite Hreg, Hpayload. eexists. repeat split.
Qed.

(** A payload without NUL bytes reaches the handler as it is. *)
Lemma messageCallback_dispatch_text mosq userdata o message f bytes w :
  objects w !! userdata = Some o ->
  mSubscriptionHandlers w !! c_str (msg_topic message) = Some (Some f) ->
  msg_payload message = Some bytes ->
  nul_free bytes = true ->
  trace (snd (messageCallback mosq userdata message w))
  = trace w ++ [handler_call f (c_str (msg_topic message)) bytes].
Proof.
  intros Hlive Hreg Hpayload Hnul.
  destruct (messageCallback_dispatch mosq userdata o message f bytes w
              Hlive Hreg Hpayload) as (w' & -> & Htr & _).
  cbn [snd]. now rewrite Htr, (c_str_nul_free _ Hnul).
Qed.

(** No entry for the topic, or an empty handler: the message is dropped,
    the hook returns and no call is made, whatever the payload. *)
Lemma messageCallback_drop mosq userdata o message w :
  objects w !! userdata = Some o ->
  mSubscriptionHandlers w !! c_str (msg_topic message) = None
  ∨ mSubscriptionHandlers w !! c_str (msg_topic message) = Some None ->
  exists w',
    messageCallback mosq userdata message w = (Returned tt, w')
    ∧ trace w' = trace w
    ∧ mSubscriptionHandlers w' = mSubscriptionHandlers w.
Proof.
  intros Hlive Hreg. rewrite (messageCallback_run mosq userdata o message w Hlive).
  cbv zeta.
  destruct (mSubscriptionHandlers w !! c_str (msg_topic message)) as [[f|]|].
  - destruct Hreg as [Hreg|Hreg]; discriminate Hreg.
  - eexists; repeat split.
  - eexists; repeat split.
Qed.

(** A handler registered for the topic and a null payload pointer: the
    conversion of the payload for the handler throws, and the handler
    is not called. *)
Lemma messageCallback_null_payload mosq userdata o message f w :
  objects w !! userdata = Some o ->
  mSubscriptionHandlers w !! c_str (msg_topic message) = Some (Some f) ->
  msg_payload message = None ->
  exists what w',
    messageCallback mosq userdata message w = (Thrown what, w')
    ∧ trace w' = trace w
    ∧ mSubscriptionHandlers w' = mSubscriptionHandlers w.
Proof.
  intros Hlive Hreg Hpayload.
  rewrite (messageCallback_run mosq userdata o message w Hlive).
  cbv zeta. rewrite Hreg, Hpayload. eexists _, _. repeat split.
Qed.

(** C1: at the message of payload bytes 'a', NUL, 'b' on a topic whose
    handler was registered by a successful [subscribe], the hook calls
    the handler once, with the right topic, but with the payload "a":
    the two bytes from the NUL on never reach the handler.  And at a
    message of length 0 on that topic, whose payload pointer is null,
    the hook throws and does not call the handler at all. *)
Theorem messageCallback_cuts_payload_at_nul :
  fst (subscribe engine_ok 7%nat "sensors/t" (Some 5%nat) world_one_facade) = Returned true
  ∧ messageCallback (Some 1%nat) 7%nat binary_message world_subscribed
    = (Returned tt, snd (messageCallback (Some 1%nat) 7%nat binary_message world_subscribed))
  ∧ trace (snd (messageCallback (Some 1%nat) 7%nat binary_message world_subscribed))
    = trace world_subscribed ++ [handler_call 5%nat "sensors/t" "a"]
  ∧ msg_payload binary_message = Some binary_payload
  ∧ String.length binary_payload = 3%nat
  ∧ binary_payload ≠ "a"%string
  ∧ msg_payload empty_message = None
  ∧ fst (messageCallback (Some 1%nat) 7%nat empty_message world_subscribed)
    = Thrown "basic_string: construction from null is not valid"
  ∧ trace (snd (messageCallback (Some 1%nat) 7%nat empty_message world_subscribed))
    = trace world_subscribed.
Proof.
  split; [reflexivity|]. split; [reflexivity|]. split; [reflexivity|].
  split; [reflexivity|]. split; [reflexivity|]. split; [discriminate|].
  split; [reflexivity|]. split; reflexivity.
Qed.

End Dispatch.

(** C8: two facades, at addresses 7 and 8; the first subscribes handler 5
    to "sensors/t".  The table read through the second holds that
    entry and a text message arriving through the second is dispatched
    to the handler: the registry is shared.  But a message of length 0
    on the topic, arriving through the second, makes the hook throw:
    the handler is not invoked. *)
Theorem shared_registry_hook_throws_on_null_payload :
  fst (subscribe engine_ok 7%nat "sensors/t" (Some 5%nat) world_two_facades)
  = Returned true
  ∧ objects world_two_subscribed !! 7%nat = Some {| mMosquitoLibHandler := Some 1%nat |}
  ∧ objects world_two_subscribed !! 8%nat = Some {| mMosquitoLibHandler := Some 1%nat |}
  ∧ getSubscriptionTable 8%nat world_two_subscribed
    = (Returned (mSubscriptionHandlers world_two_subscribed), world_two_subscribed)
  ∧ mSubscriptionHandlers world_two_subscribed !! "sensors/t" = Some (Some 5%nat)
  ∧ messageCallback (Some 1%nat) 8%nat text_message world_two_subscribed
    = (Returned tt, snd (messageCallback (Some 1%nat) 8%nat text_message
                           world_two_subscribed))
  ∧ trace (snd (messageCallback (Some 1%nat) 8%nat text_message world_two_subscribed))
    = trace world_two_subscribed ++ [handler_call 5%nat "sensors/t" "21.5"]
  ∧ msg_topic empty_message = "sensors/t"%string
  ∧ msg_payload empty_message = None
  ∧ fst (messageCallback (Some 1%nat) 8%nat empty_message world_two_subscribed)
    = Thrown "basic_string: construction from null is not valid"
  ∧ trace (snd (messageCallback (Some 1%nat) 8%nat empty_message world_two_subscribed))
    = trace world_two_subscribed.
Proof.
  split; [reflexivity|]. split; [reflexivity|]. split; [reflexivity|].
  split; [reflexivity|]. split; [reflexivity|]. split; [reflexivity|].
  split; [reflexivity|]. split; [reflexivity|]. split; [reflexivity|].
  split; reflexivity.
Qed.

(** ** Destruction *)

Section Destruction.
Context (E : Engine).

(** The destructor of a live facade asks for a disconnect, whose answer
    has no influence, then cleans up the library, and the object is
    gone; these two are all its engine calls. *)
Lemma dtor_calls this o w :
  objects w !! this = Some o ->
  exists w',
    MqttClient_dtor E this w = (Returned tt, w')
    ∧ trace w' = trace w ++ [mosquitto_disconnect (mMosquitoLibHandler o);
                             mosquitto_lib_cleanup]
    ∧ objects w' !! this = None
    ∧ mosquitto_destroy (mMosquitoLibHandler o)
        ∉ [mosquitto_disconnect (mMosquitoLibHandler o); mosquitto_lib_cleanup].
Proof.
  intros Hlive. rewrite (dtor_run E this o w Hlive). eexists.
  split; [reflexivity|]. split; [reflexivity|]. split.
  - cbn. apply lookup_delete_eq.
  - intros Hin. repeat (apply elem_of_cons in Hin as [Hin|Hin]; [discriminate|]).
    now apply elem_of_nil in Hin.
Qed.

End Destruction.

(** C9: constructing a facade and destroying it, with an engine that
    hands out handle 1: the destructor requests the disconnect and
    then releases the library, also when the disconnect is refused, but
    the whole trace holds no [mosquitto_destroy]: the handle obtained
    from [mosquitto_new] is never given back. *)
Theorem destructor_never_destroys_handle :
  MqttClient_dtor engine_ok 7%nat world_one_facade
  = (Returned tt, snd (MqttClient_dtor engine_ok 7%nat world_one_facade))
  ∧ objects world_one_facade !! 7%nat = Some {| mMosquitoLibHandler := Some 1%nat |}
  ∧ mosquitto_new "device-01" false 7%nat ∈ trace world_one_facade
  ∧ trace (snd (MqttClient_dtor engine_ok 7%nat world_one_facade))
    = trace world_one_facade ++ [mosquitto_disconnect (Some 1%nat); mosquitto_lib_cleanup]
  ∧ trace (snd (MqttClient_dtor engine_not_connected 7%nat world_one_facade))
    = trace world_one_facade ++ [mosquitto_disconnect (Some 1%nat); mosquitto_lib_cleanup]
  ∧ forallb (fun e => negb (is_destroy e))
      (trace (snd (MqttClient_dtor engine_ok 7%nat world_one_facade))) = true.
Proof.
  split; [reflexivity|]. split; [reflexivity|]. split.
  - vm_compute. apply list_elem_of_further, list_elem_of_here.
  - repeat split.
Qed.

(** ** The theorems at concrete inputs *)

Lemma construction_fails_iff_lib_init_fails_witness :
  fst (MqttClient_ctor engine_fail 7%nat "device-01" "user" "secret" (initial_world ∅))
  = Thrown "Error while initializing MOSQUITTO library: Invalid arguments provided.".
Proof.
  destruct (construction_fails_iff_lib_init_fails engine_fail 7%nat
              "device-01" "user" "secret" (initial_world ∅))
    as (out & w' & Hrun & _ & Hfail & _).
  rewrite Hrun. cbn [fst].
  apply Hfail. vm_compute. discriminate.
Defined.

Lemma subscribe_registers_on_success_only_witness :
  objects world_one_facade !! 7%nat = Some {| mMosquitoLibHandler := Some 1%nat |}
  ∧ fst (subscribe engine_ok 7%nat "sensors/t" (Some 5%nat) world_one_facade)
    = Returned true
  ∧ mSubscriptionHandlers
      (snd (subscribe engine_ok 7%nat "sensors/t" (Some 5%nat) world_one_facade))
    !! "sensors/t" = Some (Some 5%nat).
Proof.
  assert (objects world_one_facade !! 7%nat
          = Some {| mMosquitoLibHandler := Some 1%nat |}) as Hlive by reflexivity.
  split; [exact Hlive|].
  destruct (subscribe_registers_on_success_only engine_ok 7%nat _
              "sensors/t" (Some 5%nat) world_one_facade Hlive)
    as (b & w' & Hrun & _ & _ & Hok).
  rewrite Hrun. cbn [fst snd].
  destruct (Hok eq_refl) as (-> & _ & Hone & _).
  split; [reflexivity|]. now apply Hone.
Defined.

Lemma fixed_protocol_parameters_witness :
  objects world_one_facade !! 7%nat = Some {| mMosquitoLibHandler := Some 1%nat |}
  ∧ trace (snd (send engine_ok 7%nat "sensors/t" "21.5" world_one_facade))
    = trace world_one_facade ++
      [mosquitto_publish (Some 1%nat) None "sensors/t" 4 "21.5" 1 true].
Proof.
  assert (objects world_one_facade !! 7%nat
          = Some {| mMosquitoLibHandler := Some 1%nat |}) as Hlive by reflexivity.
  split; [exact Hlive|].
  destruct (fixed_protocol_parameters engine_ok 7%nat _ world_one_facade Hlive)
    as (_ & _ & Hsend & _).
  destruct (Hsend "sensors/t" "21.5") as (b & w' & Hrun & Htrace & _).
  rewrite Hrun. cbn [snd]. exact Htrace.
Defined.

Lemma connect_true_iff_all_steps_succeed_witness :
  objects world_one_facade !! 7%nat = Some {| mMosquitoLibHandler := Some 1%nat |}
  ∧ fst (connect engine_ok 7%nat "broker.local" 8883 world_one_facade) = Returned true.
Proof.
  assert (objects world_one_facade !! 7%nat
          = Some {| mMosquitoLibHandler := Some 1%nat |}) as Hlive by reflexivity.
  split; [exact Hlive|].
  destruct (connect_true_iff_all_steps_succeed engine_ok 7%nat _
              "broker.local" 8883 world_one_facade Hlive)
    as (h & r1 & r2 & r3 & r4 & b & w' & -> & -> & -> & -> & -> & Hrun & Hiff & _).
  rewrite Hrun. cbn [fst]. f_equal. apply Hiff. repeat split.
Defined.

Lemma registry_written_by_subscribe_only_witness :
  run_ops engine_ok
    [op_subscribe 7%nat "sensors/t" (Some 5%nat);
     op_connect 7%nat "broker.local" 8883;
     op_messageCallback (Some 1%nat) 7%nat text_message;
     op_dtor 7%nat]
    world_one_facade ≠ None
  ∧ forall w',
      run_ops engine_ok
        [op_subscribe 7%nat "sensors/t" (Some 5%nat);
         op_connect 7%nat "broker.local" 8883;
         op_messageCallback (Some 1%nat) 7%nat text_message;
         op_dtor 7%nat]
        world_one_facade = Some w' ->
      dom (mSubscriptionHandlers world_one_facade) ⊆ dom (mSubscriptionHandlers w').
Proof.
  split; [vm_compute; discriminate|].
  intros w'.
  exact (proj2 (proj2 (registry_written_by_subscribe_only engine_ok)) _ world_one_facade w').
Defined.

Lemma null_handle_is_never_checked_witness :
  mosq_ret engine_no_handle (trace (initial_world ∅)) mosquitto_lib_init = MOSQ_ERR_SUCCESS
  ∧ mosq_new_ret engine_no_handle (trace (initial_world ∅) ++ [mosquitto_lib_init])
      (mosquitto_new (c_str "device-01") false 7%nat) = None
  ∧ exists w0,
      MqttClient_ctor engine_no_handle 7%nat "device-01" "user" "secret" (initial_world ∅)
      = (Returned tt, w0)
      ∧ trace (snd (disconnect engine_no_handle 7%nat w0))
        = trace w0 ++ [mosquitto_disconnect None].
Proof.
  split; [reflexivity|]. split; [reflexivity|].
  destruct (null_handle_is_never_checked engine_no_handle 7%nat
              "device-01" "user" "secret" (initial_world ∅) eq_refl eq_refl)
    as (w0 & Hrun & _ & Hops).
  exists w0. split; [exact Hrun|].
  destruct (Hops [] w0 eq_refl eq_refl) as (_ & _ & Hdisc & _).
  exact Hdisc.
Defined.

(** * Further properties of the facade *)

(** ** Replacing, keeping and masking handlers *)

Section Resubscription.
Context (E : Engine).

(** A [subscribe] that returns [true] has run on a live object and has
    changed the registry by one binding and nothing else but the trace
    and the log. *)
Lemma subscribe_true_inv this topic callback w :
  fst (subscribe E this topic callback w) = Returned true ->
  mSubscriptionHandlers (snd (subscribe E this topic callback w))
  = <[topic := callback]> (mSubscriptionHandlers w)
  ∧ objects (snd (subscribe E this topic callback w)) = objects w.
Proof.
  intros Htrue.
  destruct (objects w !! this) as [o|] eqn:Hlive.
  - revert Htrue. rewrite (subscribe_run E this o topic callback w Hlive). cbv zeta.
    destruct (MOSQ_ERR_SUCCESS =? _); [|discriminate]. intros _. split; reflexivity.
  - revert Htrue. run_facade. rewrite Hlive. discriminate.
Qed.

Lemma subscribe_false_inv this topic callback w :
  fst (subscribe E this topic callback w) = Returned false ->
  mSubscriptionHandlers (snd (subscribe E this topic callback w))
  = mSubscriptionHandlers w
  ∧ objects (snd (subscribe E this topic callback w)) = objects w.
Proof.
  intros Hfalse.
  destruct (objects w !! this) as [o|] eqn:Hlive.
  - revert Hfalse. rewrite (subscribe_run E this o topic callback w Hlive). cbv zeta.
    destruct (MOSQ_ERR_SUCCESS =? _); [discriminate|]. intros _. split; reflexivity.
  - revert Hfalse. run_facade. rewrite Hlive. discriminate.
Qed.

(** X1: when two subscriptions to the same topic both return [true],
    a message on that topic whose payload pointer is not null is
    dispatched to the handler given second, once, and the handler given
    first is not called. *)
Theorem resubscribe_replaces_handler
    (this this' u : nat) (ou : MqttClient) (topic : string)
    (first : CallbackType) (f2 : Handler)
    (mosq : mosquitto_ptr) (message : mosquitto_message) (bytes : string) (w : World) :
  fst (subscribe E this topic first w) = Returned true ->
  fst (subscribe E this' topic (Some f2)
         (snd (subscribe E this topic first w))) = Returned true ->
  objects w !! u = Some ou ->
  c_str (msg_topic message) = topic ->
  msg_payload message = Some bytes ->
  exists w2 w3,
    w2 = snd (subscribe E this' topic (Some f2) (snd (subscribe E this topic first w)))
    ∧ messageCallback mosq u message w2 = (Returned tt, w3)
    ∧ trace w3 = trace w2 ++ [handler_call f2 topic (c_str bytes)].
Proof.
  intros H1 H2 Hu Htopic Hpayload.
  destruct (subscribe_true_inv _ _ _ _ H1) as [_ Hobj1].
  destruct (subscribe_true_inv _ _ _ _ H2) as [Hreg2 Hobj2].
  eexists _, _. split; [reflexivity|].
  assert (objects (snd (subscribe E this' topic (Some f2)
                          (snd (subscribe E this topic first w))))
          !! u = Some ou) as Hlive by (now rewrite Hobj2, Hobj1).
  rewrite (messageCallback_run mosq u ou message _ Hlive). cbv zeta.
  rewrite Htopic, Hreg2, lookup_insert_eq, Hpayload. split; reflexivity.
Qed.

(** X2: when a subscription to a topic returns [true] and a later one
    to the same topic returns [false], the handler of the first stays
    in charge: a message on the topic whose payload pointer is not null
    is dispatched to it. *)
Theorem failed_resubscribe_keeps_handler
    (this this' u : nat) (ou : MqttClient) (topic : string)
    (f1 : Handler) (second : CallbackType)
    (mosq : mosquitto_ptr) (message : mosquitto_message) (bytes : string) (w : World) :
  fst (subscribe E this topic (Some f1) w) = Returned true ->
  fst (subscribe E this' topic second
         (snd (subscribe E this topic (Some f1) w))) = Returned false ->
  objects w !! u = Some ou ->
  c_str (msg_topic message) = topic ->
  msg_payload message = Some bytes ->
  exists w2 w3,
    w2 = snd (subscribe E this' topic second (snd (subscribe E this topic (Some f1) w)))
    ∧ messageCallback mosq u message w2 = (Returned tt, w3)
    ∧ trace w3 = trace w2 ++ [handler_call f1 topic (c_str bytes)].
Proof.
  intros H1 H2 Hu Htopic Hpayload.
  destruct (subscribe_true_inv _ _ _ _ H1) as [Hreg1 Hobj1].
  destruct (subscribe_false_inv _ _ _ _ H2) as [Hreg2 Hobj2].
  eexists _, _. split; [reflexivity|].
  assert (objects (snd (subscribe E this' topic second
                          (snd (subscribe E this topic (Some f1) w))))
          !! u = Some ou) as Hlive by (now rewrite Hobj2, Hobj1).
  rewrite (messageCallback_run mosq u ou message _ Hlive). cbv zeta.
  rewrite Htopic, Hreg2, Hreg1, lookup_insert_eq, Hpayload. split; reflexivity.
Qed.

(** X3: subscribing a topic with an empty handler is accepted like any
    other subscription (the engine is asked to subscribe) and masks the
    topic: a message on it that was dispatched to the registered
    handler before (its payload pointer not being null) is dropped
    afterwards, the hook returning without any call; so is one with a
    null payload, which made the hook throw before. *)
Theorem empty_handler_masks_topic
    (this u : nat) (o ou : MqttClient) (topic : string) (f : Handler)
    (mosq : mosquitto_ptr) (message : mosquitto_message) (w : World) :
  objects w !! this = Some o ->
  objects w !! u = Some ou ->
  mSubscriptionHandlers w !! topic = Some (Some f) ->
  fst (subscribe E this topic None w) = Returned true ->
  c_str (msg_topic message) = topic ->
  exists w1,
    w1 = snd (subscribe E this topic None w)
    ∧ trace w1 = trace w ++ [mosquitto_subscribe (mMosquitoLibHandler o) None
                               (c_str topic) 1]
    ∧ (forall bytes, msg_payload message = Some bytes ->
         exists w2,
           messageCallback mosq u message w = (Returned tt, w2)
           ∧ trace w2 = trace w ++ [handler_call f topic (c_str bytes)])
    ∧ (msg_payload message = None ->
         exists what w2,
           messageCallback mosq u message w = (Thrown what, w2)
           ∧ trace w2 = trace w)
    ∧ exists w3,
        messageCallback mosq u message w1 = (Returned tt, w3)
        ∧ trace w3 = trace w1.
Proof.
  intros Hthis Hu Hreg Htrue Htopic.
  destruct (subscribe_true_inv _ _ _ _ Htrue) as [Hreg1 Hobj1].
  eexists. split; [reflexivity|]. split.
  { rewrite (subscribe_run E this o _ None w Hthis). cbv zeta.
    destruct (MOSQ_ERR_SUCCESS =? _); reflexivity. }
  rewrite (messageCallback_run mosq u ou message w Hu). cbv zeta.
  rewrite Htopic, Hreg. split; [|split].
  - intros bytes ->. eexists. split; reflexivity.
  - intros ->. eexists _, _. split; reflexivity.
  - assert (objects (snd (subscribe E this topic None w)) !! u = Some ou)
      as Hlive by (now rewrite Hobj1).
    rewrite (messageCallback_run mosq u ou message _ Hlive). cbv zeta.
    rewrite Htopic, Hreg1, lookup_insert_eq. eexists. split; reflexivity.
Qed.

End Resubscription.

(** ** What the hooks do and do not do *)

Section Hooks.
Context (E : Engine).

(** X4: the message hook, given a live facade as user data, makes no
    call or exactly one handler call.  The handler called is the
    non-empty entry registered under the very topic of the message
    (read as a C string), it is called with that topic and the payload
    read as a C string, and it is called exactly when there is such an
    entry and the payload pointer is not null; then the hook returns.
    With such an entry and a null payload the hook throws and calls
    nothing.  Without such an entry the hook returns and calls nothing.
    Entries under other topics stay silent, and registry and objects
    are as before in every case. *)
Theorem messageCallback_exact_topic_at_most_once
    (mosq : mosquitto_ptr) (userdata : nat) (o : MqttClient)
    (message : mosquitto_message) (w : World) :
  objects w !! userdata = Some o ->
  exists out w' calls,
    messageCallback mosq userdata message w = (out, w')
    ∧ trace w' = trace w ++ calls
    ∧ (List.length calls <= 1)%nat
    ∧ (forall e, e ∈ calls ->
         exists f bytes,
           e = handler_call f (c_str (msg_topic message)) (c_str bytes)
           ∧ msg_payload message = Some bytes
           ∧ mSubscriptionHandlers w !! c_str (msg_topic message) = Some (Some f)
           ∧ out = Returned tt)
    ∧ (forall f bytes,
         mSubscriptionHandlers w !! c_str (msg_topic message) = Some (Some f) ->
         msg_payload message = Some bytes ->
         out = Returned tt
         ∧ calls = [handler_call f (c_str (msg_topic message)) (c_str bytes)])
    ∧ (forall f,
         mSubscriptionHandlers w !! c_str (msg_topic message) = Some (Some f) ->
         msg_payload message = None ->
         (exists what, out = Thrown what) ∧ calls = [])
    ∧ ((forall f, mSubscriptionHandlers w !! c_str (msg_topic message) ≠ Some (Some f)) ->
         out = Returned tt ∧ calls = [])
    ∧ mSubscriptionHandlers w' = mSubscriptionHandlers w
    ∧ objects w' = objects w.
Proof.
  intros Hlive. rewrite (messageCallback_run mosq userdata o message w Hlive). cbv zeta.
  destruct (mSubscriptionHandlers w !! c_str (msg_topic message)) as [[f|]|] eqn:Hreg;
    [destruct (msg_payload message) as [bytes|] eqn:Hpayload|..].
  - eexists _, _, [_]. split; [reflexivity|]. split; [reflexivity|].
    split; [cbn; lia|]. split; [|split; [|split; [|split; [|split; reflexivity]]]].
    + intros e He. apply list_elem_of_singleton in He as ->.
      exists f, bytes. repeat split.
    + intros f' bytes' [= <-] [= <-]. split; reflexivity.
    + intros f' _ [=].
    + intros Hnone. exfalso. exact (Hnone f eq_refl).
  - eexists _, _, []. split; [reflexivity|]. split; [cbn; now rewrite app_nil_r|].
    split; [cbn; lia|]. split; [|split; [|split; [|split; [|split; reflexivity]]]].
    + intros e He. now apply elem_of_nil in He.
    + intros f' bytes' _ [=].
    + intros f' _ _. split; [eauto | reflexivity].
    + intros Hnone. exfalso. exact (Hnone f eq_refl).
  - eexists _, _, []. split; [reflexivity|]. split; [cbn; now rewrite app_nil_r|].
    split; [cbn; lia|]. split; [|split; [|split; [|split; [|split; reflexivity]]]].
    + intros e He. now apply elem_of_nil in He.
    + intros f' bytes' [=].
    + intros f' [=].
    + intros _. split; reflexivity.
  - eexists _, _, []. split; [reflexivity|]. split; [cbn; now rewrite app_nil_r|].
    split; [cbn; lia|]. split; [|split; [|split; [|split; [|split; reflexivity]]]].
    + intros e He. now apply elem_of_nil in He.
    + intros f' bytes' [=].
    + intros f' [=].
    + intros _. split; reflexivity.
Qed.

(** X5: destroying a facade removes none of the subscriptions made
    through it: the object is gone, but the handler is still registered
    and a message (its payload pointer not null) arriving through
    another live facade is dispatched to it. *)
Theorem subscriptions_outlive_facade
    (a b : nat) (oa ob : MqttClient) (f : Handler)
    (mosq : mosquitto_ptr) (message : mosquitto_message) (bytes : string) (w : World) :
  objects w !! a = Some oa ->
  objects w !! b = Some ob ->
  a ≠ b ->
  mSubscriptionHandlers w !! c_str (msg_topic message) = Some (Some f) ->
  msg_payload message = Some bytes ->
  exists w1 w2,
    MqttClient_dtor E a w = (Returned tt, w1)
    ∧ objects w1 !! a = None
    ∧ mSubscriptionHandlers w1 = mSubscriptionHandlers w
    ∧ messageCallback mosq b message w1 = (Returned tt, w2)
    ∧ trace w2 = trace w1 ++ [handler_call f (c_str (msg_topic message)) (c_str bytes)].
Proof.
  intros Ha Hb Hne Hreg Hpayload. rewrite (dtor_run E a oa w Ha).
  eexists _, _. split; [reflexivity|]. split; [cbn; apply lookup_delete_eq|].
  split; [reflexivity|].
  assert (objects (set_objects (delete a (objects w))
            (set_trace (trace w ++ [mosquitto_disconnect (mMosquitoLibHandler oa);
                                    mosquitto_lib_cleanup]) w)) !! b = Some ob) as Hlive.
  { cbn. now rewrite lookup_delete_ne. }
  rewrite (messageCallback_run mosq b ob message _ Hlive). cbv zeta.
  cbn [mSubscriptionHandlers set_objects set_trace set_log]. rewrite Hreg, Hpayload.
  split; reflexivity.
Qed.

(** Each acknowledgement hook returns normally, in every world, and
    changes nothing but the log. *)
Lemma ack_hook_returns o w :
  is_ack_hook o = true ->
  exists w1,
    run_op E o w = (Returned tt, w1)
    ∧ trace w1 = trace w ∧ objects w1 = objects w
    ∧ mSubscriptionHandlers w1 = mSubscriptionHandlers w
    ∧ files w1 = files w.
Proof.
  intros Ho. destruct o; try discriminate Ho; cbn [run_op]; run_facade.
  - destruct (negb (resultCode =? 0)); eexists; repeat split.
  - eexists; repeat split.
  - eexists; repeat split.
Qed.

(** X6: the connect, publish and subscribe acknowledgement hooks are
    inert: each of them, with any arguments (a refused connection
    included), any user data and in any world, returns normally, and
    any run of them leaves the engine trace, the objects, the registry
    and the files untouched; nothing is reported to anyone. *)
Theorem acknowledgement_hooks_are_inert (ops : list Op) (w : World) :
  forallb is_ack_hook ops = true ->
  (forall o w0, o ∈ ops ->
     exists w1,
       run_op E o w0 = (Returned tt, w1)
       ∧ trace w1 = trace w0
       ∧ objects w1 = objects w0
       ∧ mSubscriptionHandlers w1 = mSubscriptionHandlers w0
       ∧ files w1 = files w0)
  ∧ exists w',
      run_ops E ops w = Some w'
      ∧ trace w' = trace w
      ∧ objects w' = objects w
      ∧ mSubscriptionHandlers w' = mSubscriptionHandlers w
      ∧ files w' = files w.
Proof.
  intros Hall. split.
  - intros o w0 Hin. apply ack_hook_returns.
    rewrite forallb_forall in Hall. apply Hall. now apply list_elem_of_In.
  - revert w Hall. induction ops as [|o rest IH]; cbn [forallb run_ops]; intros w Hall.
    + exists w. repeat split.
    + apply andb_prop in Hall as [Ho Hrest].
      destruct (ack_hook_returns o w Ho) as (w1 & Hrun & Ht & Hobj & Hreg & Hf).
      rewrite Hrun. destruct (IH w1 Hrest) as (w' & Hrun' & Ht' & Hobj' & Hreg' & Hf').
      exists w'. split; [exact Hrun'|]. repeat split; congruence.
Qed.

(** X7: a subscription whose topic string holds a NUL byte asks the
    engine for the topic cut at that byte but registers the handler
    under the whole string; no message can carry such a topic, so a
    message that had no handler before (one on the cut topic, for
    instance) is still dropped after the subscription has succeeded. *)
Theorem nul_topic_is_never_dispatched
    (this u : nat) (o ou : MqttClient) (topic : string) (callback : CallbackType)
    (mosq : mosquitto_ptr) (message : mosquitto_message) (w : World) :
  objects w !! this = Some o ->
  objects w !! u = Some ou ->
  nul_free topic = false ->
  nul_free (msg_topic message) = true ->
  mSubscriptionHandlers w !! msg_topic message = None ->
  fst (subscribe E this topic callback w) = Returned true ->
  exists w1 w2,
    w1 = snd (subscribe E this topic callback w)
    ∧ trace w1 = trace w ++ [mosquitto_subscribe (mMosquitoLibHandler o) None
                               (c_str topic) 1]
    ∧ mSubscriptionHandlers w1 !! topic = Some callback
    ∧ messageCallback mosq u message w1 = (Returned tt, w2)
    ∧ trace w2 = trace w1.
Proof.
  intros Hthis Hu Hnul Hmsg Hnone Htrue.
  assert (Hreg_obj : mSubscriptionHandlers (snd (subscribe E this topic callback w))
                     = <[topic := callback]> (mSubscriptionHandlers w)
                     ∧ objects (snd (subscribe E this topic callback w)) = objects w).
  { revert Htrue. rewrite (subscribe_run E this o topic callback w Hthis). cbv zeta.
    destruct (MOSQ_ERR_SUCCESS =? _); [|discriminate]. intros _. split; reflexivity. }
  destruct Hreg_obj as [Hreg1 Hobj1].
  assert (topic ≠ msg_topic message) as Hne by (intros ->; congruence).
  eexists _, _. split; [reflexivity|]. split.
  { rewrite (subscribe_run E this o topic callback w Hthis). cbv zeta.
    destruct (MOSQ_ERR_SUCCESS =? _); reflexivity. }
  split; [rewrite Hreg1; apply lookup_insert_eq|].
  assert (objects (snd (subscribe E this topic callback w)) !! u = Some ou)
    as Hlive by (now rewrite Hobj1).
  rewrite (messageCallback_run mosq u ou message _ Hlive). cbv zeta.
  rewrite (c_str_nul_free _ Hmsg).
  unfold CallbackType in *.
  rewrite Hreg1, lookup_insert_ne by exact Hne. rewrite Hnone. split; reflexivity.
Qed.

End Hooks.

(** ** Requests, handles and the library runtime *)

Section Runtime.
Context (E : Engine).

(** X8: the option setup hands back the engine's own code: that of
    [mosquitto_tls_set] when it is an error, in which case the protocol
    version is not set at all, and otherwise that of
    [mosquitto_opts_set]; it is [MOSQ_ERR_SUCCESS] exactly when both
    requests succeeded. *)
Theorem setupOptions_returns_first_error
    (this : nat) (o : MqttClient) (w : World) :
  objects w !! this = Some o ->
  exists rc w',
    setupOptions E this w = (Returned rc, w')
    ∧ (mosq_ret E (trace w) (tls_request (mMosquitoLibHandler o)) ≠ MOSQ_ERR_SUCCESS ->
       rc = mosq_ret E (trace w) (tls_request (mMosquitoLibHandler o))
       ∧ trace w' = trace w ++ [tls_request (mMosquitoLibHandler o)])
    ∧ (mosq_ret E (trace w) (tls_request (mMosquitoLibHandler o)) = MOSQ_ERR_SUCCESS ->
       rc = mosq_ret E (trace w ++ [tls_request (mMosquitoLibHandler o)])
              (protocol_request (mMosquitoLibHandler o))
       ∧ trace w' = trace w ++ [tls_request (mMosquitoLibHandler o);
                                protocol_request (mMosquitoLibHandler o)])
    ∧ (rc = MOSQ_ERR_SUCCESS <->
       mosq_ret E (trace w) (tls_request (mMosquitoLibHandler o)) = MOSQ_ERR_SUCCESS
       ∧ mosq_ret E (trace w ++ [tls_request (mMosquitoLibHandler o)])
           (protocol_request (mMosquitoLibHandler o)) = MOSQ_ERR_SUCCESS)
    ∧ mSubscriptionHandlers w' = mSubscriptionHandlers w
    ∧ objects w' = objects w.
Proof.
  intros Hlive. rewrite (setupOptions_run E this o w Hlive). cbv zeta.
  destruct (Z.eqb_spec MOSQ_ERR_SUCCESS
              (mosq_ret E (trace w) (tls_request (mMosquitoLibHandler o)))) as [H1|H1].
  - eexists _, _. split; [reflexivity|]. cbn [trace set_trace set_log].
    split; [intros Hne; congruence|]. split; [intros _; split; reflexivity|].
    split; [|split; reflexivity].
    split; [intros H2; split; congruence | intros [_ H2]; exact H2].
  - eexists _, _. split; [reflexivity|]. cbn [trace set_trace set_log].
    split; [intros _; split; reflexivity|]. split; [intros Heq; congruence|].
    split; [|split; reflexivity].
    split; [intros H2; congruence | intros [H2 _]; congruence].
Qed.

Ltac own_handle_calls :=
  repeat (apply List.Forall_cons; [first [left; reflexivity | right; reflexivity]|]);
  apply List.Forall_nil.

(** X9: whatever member function runs on a live facade ([connect],
    [disconnect], [send], [subscribe] or the destructor), it makes at
    least one engine call, every call that takes a handle is made on
    that facade's own handle (the only other call is the library
    cleanup), and no other object is touched. *)
Theorem member_functions_use_own_handle
    (this : nat) (o : MqttClient) (op : Op) (w : World) :
  objects w !! this = Some o ->
  member_op_on this op = true ->
  exists out w' calls,
    run_op E op w = (out, w')
    ∧ out ≠ Undefined
    ∧ trace w' = trace w ++ calls
    ∧ calls ≠ []
    ∧ Forall (fun e => request_handle e = Some (mMosquitoLibHandler o)
                       ∨ e = mosquitto_lib_cleanup) calls
    ∧ (forall other, other ≠ this -> objects w' !! other = objects w !! other).
Proof.
  intros Hlive Hop.
  destruct op; try discriminate Hop; cbn [member_op_on] in Hop;
    apply bool_decide_eq_true in Hop; subst this0; cbn [run_op].
  - rewrite (dtor_run E this o w Hlive). eexists _, _, _.
    split; [reflexivity|]. split; [discriminate|]. split; [reflexivity|].
    split; [discriminate|]. split; [own_handle_calls|].
    intros other Hne. cbn. now rewrite lookup_delete_ne.
  - unfold mbind, M_bind. rewrite (connect_run E this o host port w Hlive). cbv zeta.
    destruct (negb (MOSQ_ERR_SUCCESS =? _));
      [|destruct (negb (MOSQ_ERR_SUCCESS =? _));
        [|destruct (negb (MOSQ_ERR_SUCCESS =? _));
          [|destruct (negb (MOSQ_ERR_SUCCESS =? _))]]].
    all: eexists _, _, _; split; [reflexivity|]; split; [discriminate|].
    all: split; [reflexivity|]; split; [discriminate|].
    all: split; [own_handle_calls | reflexivity].
  - unfold mbind, M_bind. rewrite (disconnect_run E this o w Hlive).
    eexists _, _, _. split; [reflexivity|]. split; [discriminate|].
    split; [reflexivity|]. split; [discriminate|].
    split; [own_handle_calls | reflexivity].
  - unfold mbind, M_bind. rewrite (send_run E this o topic message w Hlive). cbv zeta.
    eexists _, _, _. split; [reflexivity|]. split; [discriminate|].
    split; [reflexivity|]. split; [discriminate|].
    split; [own_handle_calls | reflexivity].
  - unfold mbind, M_bind. rewrite (subscribe_run E this o topic callback w Hlive).
    cbv zeta. destruct (MOSQ_ERR_SUCCESS =? _).
    all: eexists _, _, _; split; [reflexivity|]; split; [discriminate|].
    all: split; [reflexivity|]; split; [discriminate|].
    all: split; [own_handle_calls | reflexivity].
Qed.


(** X10: a message shorter than 2 GiB is handed to the engine whole:
    the publish request carries the message itself, NUL bytes included,
    and its exact length, whatever the registry holds. *)
Theorem send_passes_whole_message
    (this : nat) (o : MqttClient) (topic message : string) (w : World) :
  objects w !! this = Some o ->
  Z.of_nat (String.length message) < 2 ^ 31 ->
  exists b w',
    send E this topic message w = (Returned b, w')
    ∧ trace w' = trace w ++
        [mosquitto_publish (mMosquitoLibHandler o) None (c_str topic)
           (Z.of_nat (String.length message)) message 1 true]
    ∧ mSubscriptionHandlers w' = mSubscriptionHandlers w.
Proof.
  intros Hlive Hlen. rewrite (send_run E this o topic message w Hlive). cbv zeta.
  eexists _, _. split; [reflexivity|]. split; [|reflexivity].
  cbn [trace set_trace set_log]. unfold publish_request.
  rewrite static_cast_int_small by lia. reflexivity.
Qed.

(** X11: [connect] keeps no record of having connected: with an engine
    that accepts every request, a second [connect] on the same facade
    returns [true] again and has sent the same four requests once
    more. *)
Theorem connect_twice_repeats_requests
    (this : nat) (o : MqttClient) (host : string) (port : Z) (w : World) :
  (forall t e, mosq_ret E t e = MOSQ_ERR_SUCCESS) ->
  objects w !! this = Some o ->
  exists w1 w2,
    connect E this host port w = (Returned true, w1)
    ∧ connect E this host port w1 = (Returned true, w2)
    ∧ trace w2 = trace w ++
        [tls_request (mMosquitoLibHandler o); protocol_request (mMosquitoLibHandler o);
         connect_request (mMosquitoLibHandler o) host port;
         loop_request (mMosquitoLibHandler o);
         tls_request (mMosquitoLibHandler o); protocol_request (mMosquitoLibHandler o);
         connect_request (mMosquitoLibHandler o) host port;
         loop_request (mMosquitoLibHandler o)].
Proof.
  intros Hok Hlive.
  rewrite (connect_run E this o host port w Hlive). cbv zeta.
  rewrite !Hok. cbn [negb Z.eqb MOSQ_ERR_SUCCESS].
  eexists _, _. split; [reflexivity|].
  match goal with |- connect E this host port ?w1 = _ ∧ _ =>
    assert (objects w1 !! this = Some o) as Hlive1 by exact Hlive;
    rewrite (connect_run E this o host port w1 Hlive1)
  end.
  cbv zeta. rewrite !Hok. cbn [negb Z.eqb MOSQ_ERR_SUCCESS].
  split; [reflexivity|]. cbn [trace set_trace set_log].
  rewrite <- app_assoc. reflexivity.
Qed.

End Runtime.

(** ** The library runtime along a run *)

Lemma count_events_app (p : Event -> bool) (t l : list Event) :
  count_events p (t ++ l) = (count_events p t + count_events p l)%nat.
Proof. unfold count_events. now rewrite List.filter_app, List.length_app. Qed.

(** A primitive that adds no event satisfying [p] to the trace. *)
Ltac count_leaf :=
  let w := fresh "w" in
  intros w;
  cbv [mret M_ret throw LOG ifstream_good call call_void call_new
       get_mMosquitoLibHandler put_mMosquitoLibHandler end_lifetime
       getSubscriptionTable assign_mSubscriptionHandlers];
  cbv beta;
  try match goal with
      | |- context [match objects w !! ?t with _ => _ end] =>
          destruct (objects w !! t) eqn:?
      end;
  cbn [fst snd trace log files objects mSubscriptionHandlers
       set_trace set_log set_objects set_mSubscriptionHandlers];
  rewrite ?count_events_app; cbn; lia.

Ltac count_walk :=
  repeat first
    [ assumption
    | apply keeps_std_string
    | apply keeps_bind; [|intros ?]
    | match goal with
      | |- keeps _ (if ?c then _ else _) => destruct c
      | |- keeps _ (match ?x with _ => _ end) => destruct x
      | |- keeps _ (let _ := _ in _) => cbv zeta
      end
    | solve [count_leaf] ].

Section Library.
Context (E : Engine).

Lemma dtor_dead this w :
  objects w !! this = None -> fst (MqttClient_dtor E this w) = Undefined.
Proof. intros Hdead. run_facade. now rewrite Hdead. Qed.

Lemma keeps_init_count_run_op o :
  is_ctor_op o = false ->
  keeps (fun w => count_events is_lib_init (trace w)) (run_op E o).
Proof.
  destruct o; cbn [is_ctor_op run_op]; intros Hctor; try discriminate Hctor.
  all: unfold MqttClient_dtor, connect, setupOptions, disconnect, send, subscribe,
         connectCallback, publishCallback, subscribeCallback, messageCallback.
  all: count_walk.
Qed.

Lemma keeps_cleanup_count_run_op o :
  is_dtor_op o = false ->
  keeps (fun w => count_events is_lib_cleanup (trace w)) (run_op E o).
Proof.
  destruct o; cbn [is_dtor_op run_op]; intros Hdtor; try discriminate Hdtor.
  all: unfold MqttClient_ctor, connect, setupOptions, disconnect, send, subscribe,
         connectCallback, publishCallback, subscribeCallback, messageCallback.
  all: count_walk.
Qed.

Lemma ctor_init_count this deviceId username password w :
  count_events is_lib_init
    (trace (snd (MqttClient_ctor E this deviceId username password w)))
  = S (count_events is_lib_init (trace w)).
Proof.
  destruct (decide (mosq_ret E (trace w) mosquitto_lib_init = MOSQ_ERR_SUCCESS))
    as [Hok|Hfail].
  - destruct (ctor_success E this deviceId username password w Hok)
      as (h & w' & Hrun & _ & Htr & _).
    rewrite Hrun. cbn [snd]. rewrite Htr, count_events_app. cbn. lia.
  - rewrite (ctor_failure E this deviceId username password w Hfail).
    cbn [snd trace set_objects set_trace]. rewrite count_events_app. cbn. lia.
Qed.

Lemma dtor_cleanup_count this w :
  fst (MqttClient_dtor E this w) ≠ Undefined ->
  count_events is_lib_cleanup (trace (snd (MqttClient_dtor E this w)))
  = S (count_events is_lib_cleanup (trace w)).
Proof.
  intros Hdef. destruct (objects w !! this) as [o|] eqn:Hlive.
  - rewrite (dtor_run E this o w Hlive).
    cbn [snd trace set_objects set_trace]. rewrite count_events_app. cbn. lia.
  - exfalso. apply Hdef. now apply dtor_dead.
Qed.

(** X12: along any run of operations free of undefined behaviour, the
    engine's library is initialised once per construction attempted and
    cleaned up once per destruction, and by nothing else: the number of
    [mosquitto_lib_init] calls grows by the number of constructor runs
    and the number of [mosquitto_lib_cleanup] calls by the number of
    destructor runs. *)
Theorem library_calls_match_lifetimes (ops : list Op) (w w' : World) :
  run_ops E ops w = Some w' ->
  count_events is_lib_init (trace w')
  = (count_events is_lib_init (trace w) + List.length (List.filter is_ctor_op ops))%nat
  ∧ count_events is_lib_cleanup (trace w')
    = (count_events is_lib_cleanup (trace w)
       + List.length (List.filter is_dtor_op ops))%nat.
Proof.
  revert w. induction ops as [|o rest IH]; cbn [run_ops List.filter]; intros w Hrun.
  - injection Hrun as <-. cbn. split; lia.
  - assert (fst (run_op E o w) ≠ Undefined) as Hdef.
    { intros Hun. destruct (run_op E o w) as [[[]|what|] w1]; cbn in Hun;
        discriminate. }
    assert (run_ops E rest (snd (run_op E o w)) = Some w') as Hrest.
    { destruct (run_op E o w) as [[[]|what|] w1]; cbn [snd];
        [exact Hrun | exact Hrun | discriminate]. }
    destruct (IH _ Hrest) as [Hinit Hclean]. rewrite Hinit, Hclean. split.
    + destruct (is_ctor_op o) eqn:Hc.
      * destruct o; try discriminate Hc. cbn [run_op List.length].
        rewrite ctor_init_count. lia.
      * rewrite (keeps_init_count_run_op o Hc w). reflexivity.
    + destruct (is_dtor_op o) eqn:Hd.
      * destruct o; try discriminate Hd. cbn [run_op List.length] in *.
        rewrite (dtor_cleanup_count this w Hdef). lia.
      * rewrite (keeps_cleanup_count_run_op o Hd w). reflexivity.
Qed.

End Library.

(** ** How long a handler stays registered *)

Section Persistence.
Context (E : Engine).

Lemma run_op_keeps_entry topic o w :
  subscribes_to topic o = false ->
  mSubscriptionHandlers (snd (run_op E o w)) !! topic
  = mSubscriptionHandlers w !! topic.
Proof.
  intros Hno.
  destruct (run_op_registry E o w) as [->|(this & t & c & -> & _ & ->)];
    [reflexivity|].
  cbn [subscribes_to] in Hno. apply bool_decide_eq_false in Hno.
  now rewrite lookup_insert_ne.
Qed.

(** X13: once a [subscribe] has returned [true], its handler stays the
    one registered for the topic through any run of operations that
    holds no [subscribe] to that same topic: connecting, publishing,
    subscribing other topics, incoming messages, and constructing or
    destroying facades (the subscriber included) all leave it in
    place. *)
Theorem handler_stays_until_resubscribed
    (this : nat) (topic : string) (callback : CallbackType)
    (ops : list Op) (w w' : World) :
  fst (subscribe E this topic callback w) = Returned true ->
  forallb (fun o => negb (subscribes_to topic o)) ops = true ->
  run_ops E ops (snd (subscribe E this topic callback w)) = Some w' ->
  mSubscriptionHandlers w' !! topic = Some callback.
Proof.
  intros Htrue Hops Hrun.
  assert (mSubscriptionHandlers (snd (subscribe E this topic callback w)) !! topic
          = Some callback) as Hstart.
  { destruct (subscribe_registry E this topic callback w) as [[_ ->]|[Hne _]];
      [apply lookup_insert_eq | contradiction]. }
  revert Hops Hrun Hstart. generalize (snd (subscribe E this topic callback w)).
  induction ops as [|o rest IH]; cbn [forallb run_ops]; intros w0 Hops Hrun Hstart.
  - injection Hrun as <-. exact Hstart.
  - apply andb_prop in Hops as [Ho Hrest]. apply negb_true_iff in Ho.
    pose proof (run_op_keeps_entry topic o w0 Ho) as Hkeep.
    destruct (run_op E o w0) as [[[]|what|] w1]; cbn [snd] in Hkeep;
      [| |discriminate]; (apply (IH w1 Hrest Hrun); now rewrite Hkeep).
Qed.

End Persistence.

(** ** The further properties at concrete inputs *)

Lemma resubscribe_replaces_handler_witness :
  exists w3,
    messageCallback (Some 1%nat) 7%nat text_message
      (snd (subscribe engine_ok 7%nat "sensors/t" (Some 6%nat) world_subscribed))
    = (Returned tt, w3)
    ∧ trace w3
      = trace (snd (subscribe engine_ok 7%nat "sensors/t" (Some 6%nat) world_subscribed))
        ++ [handler_call 6%nat "sensors/t" "21.5"].
Proof.
  destruct (resubscribe_replaces_handler engine_ok 7%nat 7%nat 7%nat
              {| mMosquitoLibHandler := Some 1%nat |} "sensors/t" (Some 5%nat) 6%nat
              (Some 1%nat) text_message "21.5" world_one_facade
              eq_refl eq_refl eq_refl eq_refl eq_refl)
    as (w2 & w3 & -> & Hcall & Htrace).
  exists w3. split; [exact Hcall | exact Htrace].
Defined.

Lemma failed_resubscribe_keeps_handler_witness :
  fst (subscribe engine_one_subscription 7%nat "sensors/t" (Some 6%nat)
         (snd (subscribe engine_one_subscription 7%nat "sensors/t" (Some 5%nat)
                 world_one_facade))) = Returned false
  ∧ exists w3,
      messageCallback (Some 1%nat) 7%nat text_message
        (snd (subscribe engine_one_subscription 7%nat "sensors/t" (Some 6%nat)
                (snd (subscribe engine_one_subscription 7%nat "sensors/t" (Some 5%nat)
                        world_one_facade))))
      = (Returned tt, w3)
      ∧ trace w3
        = trace (snd (subscribe engine_one_subscription 7%nat "sensors/t" (Some 6%nat)
                        (snd (subscribe engine_one_subscription 7%nat "sensors/t"
                                (Some 5%nat) world_one_facade))))
          ++ [handler_call 5%nat "sensors/t" "21.5"].
Proof.
  split; [reflexivity|].
  destruct (failed_resubscribe_keeps_handler engine_one_subscription 7%nat 7%nat 7%nat
              {| mMosquitoLibHandler := Some 1%nat |} "sensors/t" 5%nat (Some 6%nat)
              (Some 1%nat) text_message "21.5" world_one_facade
              eq_refl eq_refl eq_refl eq_refl eq_refl)
    as (w2 & w3 & -> & Hcall & Htrace).
  exists w3. split; [exact Hcall | exact Htrace].
Defined.

Lemma empty_handler_masks_topic_witness :
  mSubscriptionHandlers world_subscribed !! "sensors/t" = Some (Some 5%nat)
  ∧ (exists w2,
       messageCallback (Some 1%nat) 7%nat text_message world_subscribed = (Returned tt, w2)
       ∧ trace w2 = trace world_subscribed ++ [handler_call 5%nat "sensors/t" "21.5"])
  ∧ exists w3,
      messageCallback (Some 1%nat) 7%nat text_message
        (snd (subscribe engine_ok 7%nat "sensors/t" None world_subscribed))
      = (Returned tt, w3)
      ∧ trace w3 = trace (snd (subscribe engine_ok 7%nat "sensors/t" None world_subscribed)).
Proof.
  split; [reflexivity|].
  destruct (empty_handler_masks_topic engine_ok 7%nat 7%nat
              {| mMosquitoLibHandler := Some 1%nat |}
              {| mMosquitoLibHandler := Some 1%nat |} "sensors/t" 5%nat
              (Some 1%nat) text_message world_subscribed
              eq_refl eq_refl eq_refl eq_refl eq_refl)
    as (w1 & -> & _ & Hbefore & _ & w3 & Hcall & Htrace).
  split; [exact (Hbefore "21.5"%string eq_refl)|].
  exists w3. split; [exact Hcall | exact Htrace].
Defined.

Lemma messageCallback_exact_topic_at_most_once_witness :
  objects world_subscribed !! 7%nat = Some {| mMosquitoLibHandler := Some 1%nat |}
  ∧ (exists w',
       messageCallback (Some 1%nat) 7%nat text_message world_subscribed = (Returned tt, w')
       ∧ trace w' = trace world_subscribed ++ [handler_call 5%nat "sensors/t" "21.5"])
  ∧ (exists what w',
       messageCallback (Some 1%nat) 7%nat empty_message world_subscribed = (Thrown what, w')
       ∧ trace w' = trace world_subscribed).
Proof.
  split; [reflexivity|]. split.
  - destruct (messageCallback_exact_topic_at_most_once (Some 1%nat) 7%nat
                {| mMosquitoLibHandler := Some 1%nat |} text_message world_subscribed
                eq_refl)
      as (out & w' & calls & Hrun & Htrace & _ & _ & Hcalled & _).
    destruct (Hcalled 5%nat "21.5"%string eq_refl eq_refl) as [-> ->].
    exists w'. split; [exact Hrun | exact Htrace].
  - destruct (messageCallback_exact_topic_at_most_once (Some 1%nat) 7%nat
                {| mMosquitoLibHandler := Some 1%nat |} empty_message world_subscribed
                eq_refl)
      as (out & w' & calls & Hrun & Htrace & _ & _ & _ & Hnull & _).
    destruct (Hnull 5%nat eq_refl eq_refl) as [[what ->] ->].
    exists what, w'. split; [exact Hrun|]. rewrite Htrace. apply app_nil_r.
Defined.

Lemma subscriptions_outlive_facade_witness :
  objects world_two_subscribed !! 7%nat = Some {| mMosquitoLibHandler := Some 1%nat |}
  ∧ objects world_two_subscribed !! 8%nat = Some {| mMosquitoLibHandler := Some 1%nat |}
  ∧ exists w1 w2,
      MqttClient_dtor engine_ok 7%nat world_two_subscribed = (Returned tt, w1)
      ∧ messageCallback (Some 1%nat) 8%nat text_message w1 = (Returned tt, w2)
      ∧ trace w2 = trace w1 ++ [handler_call 5%nat "sensors/t" "21.5"].
Proof.
  split; [reflexivity|]. split; [reflexivity|].
  destruct (subscriptions_outlive_facade engine_ok 7%nat 8%nat
              {| mMosquitoLibHandler := Some 1%nat |}
              {| mMosquitoLibHandler := Some 1%nat |} 5%nat
              (Some 1%nat) text_message "21.5" world_two_subscribed
              eq_refl eq_refl ltac:(discriminate) eq_refl eq_refl)
    as (w1 & w2 & Hdtor & _ & _ & Hcall & Htrace).
  exists w1, w2. split; [exact Hdtor|]. split; [exact Hcall | exact Htrace].
Defined.

Lemma acknowledgement_hooks_are_inert_witness :
  (exists w1,
     run_op engine_ok (op_connectCallback (Some 1%nat) 7%nat 5) world_one_facade
     = (Returned tt, w1))
  ∧ exists w',
      run_ops engine_ok
        [op_connectCallback (Some 1%nat) 7%nat 5;
         op_publishCallback (Some 1%nat) 7%nat 1;
         op_subscribeCallback (Some 1%nat) 7%nat 2 1 [1]]
        world_one_facade = Some w'
      ∧ trace w' = trace world_one_facade.
Proof.
  destruct (acknowledgement_hooks_are_inert engine_ok
              [op_connectCallback (Some 1%nat) 7%nat 5;
               op_publishCallback (Some 1%nat) 7%nat 1;
               op_subscribeCallback (Some 1%nat) 7%nat 2 1 [1]]
              world_one_facade eq_refl)
    as (Heach & w' & Hrun & Htrace & _).
  split.
  - destruct (Heach (op_connectCallback (Some 1%nat) 7%nat 5) world_one_facade
                (list_elem_of_here _ _)) as (w1 & Hret & _).
    exists w1. exact Hret.
  - exists w'. split; [exact Hrun | exact Htrace].
Defined.

Lemma nul_topic_is_never_dispatched_witness :
  nul_free nul_topic = false
  ∧ c_str nul_topic = msg_topic message_on_a
  ∧ exists w2,
      messageCallback (Some 1%nat) 7%nat message_on_a
        (snd (subscribe engine_ok 7%nat nul_topic (Some 5%nat) world_one_facade))
      = (Returned tt, w2)
      ∧ trace w2
        = trace (snd (subscribe engine_ok 7%nat nul_topic (Some 5%nat) world_one_facade)).
Proof.
  split; [reflexivity|]. split; [reflexivity|].
  destruct (nul_topic_is_never_dispatched engine_ok 7%nat 7%nat
              {| mMosquitoLibHandler := Some 1%nat |}
              {| mMosquitoLibHandler := Some 1%nat |} nul_topic (Some 5%nat)
              (Some 1%nat) message_on_a world_one_facade
              eq_refl eq_refl eq_refl eq_refl eq_refl eq_refl)
    as (w1 & w2 & -> & _ & _ & Hcall & Htrace).
  exists w2. split; [exact Hcall | exact Htrace].
Defined.

Lemma setupOptions_returns_first_error_witness :
  objects world_one_facade !! 7%nat = Some {| mMosquitoLibHandler := Some 1%nat |}
  ∧ fst (setupOptions engine_fail 7%nat world_one_facade) = Returned 3.
Proof.
  split; [reflexivity|].
  destruct (setupOptions_returns_first_error engine_fail 7%nat
              {| mMosquitoLibHandler := Some 1%nat |} world_one_facade eq_refl)
    as (rc & w' & Hrun & Hfail & _).
  rewrite Hrun. cbn [fst].
  destruct (Hfail ltac:(discriminate)) as [-> _]. reflexivity.
Defined.

Lemma member_functions_use_own_handle_witness :
  objects world_two_facades !! 7%nat = Some {| mMosquitoLibHandler := Some 1%nat |}
  ∧ objects (snd (run_op engine_ok (op_dtor 7%nat) world_two_facades)) !! 8%nat
    = objects world_two_facades !! 8%nat.
Proof.
  split; [reflexivity|].
  destruct (member_functions_use_own_handle engine_ok 7%nat
              {| mMosquitoLibHandler := Some 1%nat |} (op_dtor 7%nat)
              world_two_facades eq_refl eq_refl)
    as (out & w' & calls & Hrun & _ & _ & _ & _ & Hother).
  rewrite Hrun. cbn [snd]. apply Hother. discriminate.
Defined.

Lemma send_passes_whole_message_witness :
  Z.of_nat (String.length binary_payload) < 2 ^ 31
  ∧ exists b w',
      send engine_ok 7%nat "sensors/t" binary_payload world_one_facade
      = (Returned b, w')
      ∧ trace w' = trace world_one_facade ++
          [mosquitto_publish (Some 1%nat) None "sensors/t" 3 binary_payload 1 true].
Proof.
  split; [reflexivity|].
  destruct (send_passes_whole_message engine_ok 7%nat
              {| mMosquitoLibHandler := Some 1%nat |} "sensors/t"
              binary_payload world_one_facade eq_refl eq_refl)
    as (b & w' & Hrun & Htrace & _).
  exists b, w'. split; [exact Hrun | exact Htrace].
Defined.

Lemma connect_twice_repeats_requests_witness :
  exists w1 w2,
    connect engine_ok 7%nat "broker.local" 8883 world_one_facade = (Returned true, w1)
    ∧ connect engine_ok 7%nat "broker.local" 8883 w1 = (Returned true, w2).
Proof.
  destruct (connect_twice_repeats_requests engine_ok 7%nat
              {| mMosquitoLibHandler := Some 1%nat |} "broker.local" 8883
              world_one_facade (fun _ _ => eq_refl) eq_refl)
    as (w1 & w2 & H1 & H2 & _).
  exists w1, w2. split; [exact H1 | exact H2].
Defined.

Lemma library_calls_match_lifetimes_witness :
  run_ops engine_ok
    [op_ctor 7%nat "device-01" "user" "secret";
     op_ctor 8%nat "device-02" "user" "secret";
     op_connect 7%nat "broker.local" 8883;
     op_dtor 7%nat;
     op_dtor 8%nat]
    (initial_world ∅) ≠ None
  ∧ forall w',
      run_ops engine_ok
        [op_ctor 7%nat "device-01" "user" "secret";
         op_ctor 8%nat "device-02" "user" "secret";
         op_connect 7%nat "broker.local" 8883;
         op_dtor 7%nat;
         op_dtor 8%nat]
        (initial_world ∅) = Some w' ->
      count_events is_lib_init (trace w') = 2%nat
      ∧ count_events is_lib_cleanup (trace w') = 2%nat.
Proof.
  split; [vm_compute; discriminate|].
  intros w' Hrun.
  exact (library_calls_match_lifetimes engine_ok _ (initial_world ∅) w' Hrun).
Defined.

Lemma handler_stays_until_resubscribed_witness :
  run_ops engine_ok
    [op_connect 7%nat "broker.local" 8883;
     op_subscribe 7%nat "sensors/other" (Some 9%nat);
     op_messageCallback (Some 1%nat) 7%nat text_message;
     op_dtor 7%nat]
    (snd (subscribe engine_ok 7%nat "sensors/t" (Some 5%nat) world_one_facade)) ≠ None
  ∧ forall w',
      run_ops engine_ok
        [op_connect 7%nat "broker.local" 8883;
         op_subscribe 7%nat "sensors/other" (Some 9%nat);
         op_messageCallback (Some 1%nat) 7%nat text_message;
         op_dtor 7%nat]
        (snd (subscribe engine_ok 7%nat "sensors/t" (Some 5%nat) world_one_facade))
      = Some w' ->
      mSubscriptionHandlers w' !! "sensors/t" = Some (Some 5%nat).
Proof.
  split; [vm_compute; discriminate|].
  intros w' Hrun.
  refine (handler_stays_until_resubscribed engine_ok 7%nat "sensors/t" (Some 5%nat)
            _ world_one_facade w' eq_refl _ Hrun).
  reflexivity.
Defined.
